(** * pacer.py: the GetSongBPM client, query construction and result filtering

    A shallow embedding of [GetSongBPMClient.search_songs] (src/pacer.py,
    lines 60-122) and of the pieces of Python it relies on: truthiness,
    [dict.get], [str.lower], comparisons between JSON values and floats,
    list slicing, and the [try]/[except] around the HTTP round trip.

    Conventions of the model.
    - Python [int] is [Z].  A JSON number or a Python [float] is modelled by
      the rational it denotes ([Q]); only comparisons are ever made on them,
      and those are exact on finite values.  NaN and the infinities are not
      modelled.
    - Python [str] is [string], holding the UTF-8 encoding of the text: two
      texts are equal, or empty, or joined, exactly as their encodings are.
      [str.lower] is computed on texts that are all ASCII; on the other
      texts it is the parameter [unicode_lower], for Python's Unicode case
      tables are no part of the source.
    - A Python [dict] is an association list, looked up by first match.
    - Code that can raise returns an [outcome]; [print] appends a line to
      the [stdout] of the [world]; the HTTP call is an oracle that the
      [world] logs. *)

From Stdlib Require Import ZArith QArith List String Ascii Bool Lia.
From Stdlib Require Import DecimalString DecimalPos DecimalZ.
Import ListNotations.

Local Open Scope string_scope.
Local Open Scope Z_scope.

Set Implicit Arguments.

(** ** Python values *)

(** The values [response.json()] can produce. *)
#[warnings="-register-all"]
Inductive json : Type :=
| JNull
| JBool (b : bool)
| JNum (x : Q)
| JStr (s : string)
| JList (l : list json)
| JDict (d : list (string * json)).

(** The exceptions that leave the modelled code.  Those of the
    [requests.exceptions.RequestException] family never do: line 120
    catches them, see [reply] and [search_songs]. *)
Inductive exn : Type :=
| AttributeError
| TypeError.

Inductive outcome (A : Type) : Type :=
| Return (a : A)
| Raise (x : exn).

Arguments Return {A} a.
Arguments Raise {A} x.

Definition bind {A B : Type} (m : outcome A) (k : A -> outcome B) : outcome B :=
  match m with
  | Return a => k a
  | Raise x => Raise x
  end.

Notation "x <- m ;; k" := (bind m (fun x => k))
  (at level 61, m at next level, right associativity).

(** ** Strings *)

(** The text has ASCII characters only: every byte of its encoding is below
    128. *)
Fixpoint is_ascii (s : string) : bool :=
  match s with
  | EmptyString => true
  | String c rest => Nat.ltb (nat_of_ascii c) 128 && is_ascii rest
  end.

(** [c.lower()] for one ASCII character: 'A'..'Z' (65..90) move by 32. *)
Definition lower_ascii (c : ascii) : ascii :=
  let n := nat_of_ascii c in
  if (Nat.leb 65 n && Nat.leb n 90)%bool then ascii_of_nat (n + 32) else c.

(** [s.lower()] for a text [s] that is all ASCII. *)
Fixpoint ascii_lower (s : string) : string :=
  match s with
  | EmptyString => EmptyString
  | String c rest => String (lower_ascii c) (ascii_lower rest)
  end.

(** A byte of the form 10xxxxxx, which continues a character in UTF-8. *)
Definition is_continuation (c : ascii) : bool :=
  (Nat.leb 128 (nat_of_ascii c) && Nat.ltb (nat_of_ascii c) 192)%bool.

(** The bytes that still continue a character begun to the left, and the
    characters after them. *)
Fixpoint split_utf8 (s : string) : string * list string :=
  match s with
  | EmptyString => (EmptyString, [])
  | String c rest =>
      let (pending, chars) := split_utf8 rest in
      if is_continuation c then (String c pending, chars)
      else (EmptyString, String c pending :: chars)
  end.

(** The characters of a text, each as a text of its own. *)
Definition utf8_chars (s : string) : list string :=
  let (pending, chars) := split_utf8 s in
  match pending with
  | EmptyString => chars
  | String _ _ => pending :: chars
  end.

(** The texts "É" and "é" (U+00C9 and U+00E9), as their UTF-8 encodings. *)
Definition e_acute_upper : string :=
  String (ascii_of_nat 195) (String (ascii_of_nat 137) EmptyString).

Definition e_acute_lower : string :=
  String (ascii_of_nat 195) (String (ascii_of_nat 169) EmptyString).

(** For the examples, as much of Python's case tables as they need: "É"
    becomes "é", any other text is left as it is. *)
Definition sample_unicode_lower (s : string) : string :=
  if String.eqb s e_acute_upper then e_acute_lower else s.

(** A record of genre "é". *)
Definition e_acute_song : json := JDict [("genre", JStr e_acute_lower)].

Section Client.

(** Python's [str.lower] on the texts that have a non-ASCII character: the
    Unicode case mapping, which belongs to Python and not to the source, is
    taken as a parameter. *)
Variable unicode_lower : string -> string.

(** [s.lower()]. *)
Definition lower (s : string) : string :=
  if is_ascii s then ascii_lower s else unicode_lower s.

(** [str(n)] and [f"{n}"] for an [int]: decimal digits, a leading minus sign
    for negative numbers. *)
Definition str_int (n : Z) : string := NilZero.string_of_int (Z.to_int n).

(** ** Truthiness *)

(** [bool(x)] for an [Optional[str]]: [None] and the empty string are falsy. *)
Definition truthy_str (x : option string) : bool :=
  match x with
  | None => false
  | Some EmptyString => false
  | Some (String _ _) => true
  end.

(** [bool(x)] for an [Optional[float]]: [None] and zero are falsy. *)
Definition truthy_float (x : option Q) : bool :=
  match x with
  | None => false
  | Some v => negb (Qeq_bool v 0)
  end.

(** [x is not None]. *)
Definition is_not_None {A : Type} (x : option A) : bool :=
  match x with
  | None => false
  | Some _ => true
  end.

(** ** Dictionaries *)

Fixpoint dict_lookup (d : list (string * json)) (key : string) : option json :=
  match d with
  | [] => None
  | (k, v) :: rest => if String.eqb k key then Some v else dict_lookup rest key
  end.

(** [key in d] for a dict [d]. *)
Definition dict_contains (d : list (string * json)) (key : string) : bool :=
  is_not_None (dict_lookup d key).

(** [d.get(key, default)] for a dict [d]. *)
Definition dict_get (d : list (string * json)) (key : string) (default : json) : json :=
  match dict_lookup d key with
  | Some v => v
  | None => default
  end.

(** [obj.get(key, default)] for any value: only a dict has a [get]. *)
Definition py_get (obj : json) (key : string) (default : json) : outcome json :=
  match obj with
  | JDict d => Return (dict_get d key default)
  | _ => Raise AttributeError
  end.

(** [obj.lower()]: only a string has a [lower]. *)
Definition py_lower (obj : json) : outcome string :=
  match obj with
  | JStr s => Return (lower s)
  | _ => Raise AttributeError
  end.

(** ** Numbers *)

Definition Qlt_bool (x y : Q) : bool := negb (Qle_bool y x).

(** The number a value stands for in an ordering comparison with a float;
    [bool] is a subclass of [int] in Python, the other types refuse [<] and
    [>] with a [TypeError]. *)
Definition py_number (v : json) : outcome Q :=
  match v with
  | JNum x => Return x
  | JBool true => Return 1%Q
  | JBool false => Return 0%Q
  | _ => Raise TypeError
  end.

(** [v < bound] and [v > bound] for a float [bound]. *)
Definition py_lt (v : json) (bound : Q) : outcome bool :=
  x <- py_number v ;; Return (Qlt_bool x bound).

Definition py_gt (v : json) (bound : Q) : outcome bool :=
  x <- py_number v ;; Return (Qlt_bool bound x).

(** ** Sequences *)

(** [l[:n]]: the first [n] items for [n >= 0]; for a negative [n] all but
    the last [-n] items. *)
Definition py_slice_to {A : Type} (l : list A) (n : Z) : list A :=
  if 0 <=? n then firstn (Z.to_nat n) l
  else firstn (List.length l - Z.to_nat (- n)) l.

(** The items that [for song in songs] visits: the elements of a list, the
    keys of a dict, the characters of a string; the other values are not
    iterable. *)
Definition py_iter (songs : json) : outcome (list json) :=
  match songs with
  | JList l => Return l
  | JDict d => Return (map (fun kv => JStr (fst kv)) d)
  | JStr s => Return (map JStr (utf8_chars s))
  | _ => Raise TypeError
  end.

(** ** The client *)

Record GetSongBPMClient : Type := {
  api_key : string;
  base_url : string;
  headers : list (string * string)
}.

(** [GetSongBPMClient.__init__]. *)
Definition init (key : string) : GetSongBPMClient :=
  {| api_key := key;
     base_url := "https://api.getsongbpm.com";
     headers := [("Accept", "application/json"); ("X-API-KEY", key)] |}.

(** The arguments of [search_songs], under the names of its parameters. *)
Record QuerySpec : Type := {
  bpm : Z;
  bpm_tolerance : Z;
  genre : option string;
  artist : option string;
  danceability_min : option Q;
  danceability_max : option Q;
  limit : Z
}.

(** What [requests.get] is called with. *)
Record request : Type := {
  endpoint : string;
  req_headers : list (string * string);
  params : list (string * Z)
}.

(** What [requests.get], [raise_for_status] and [response.json()] come to:
    an exception of the [RequestException] family, or the decoded body. *)
Inductive reply : Type :=
| Failed (e : string)
| Body (data : json).

(** The observable effects: the requests sent so far and the texts printed
    so far, both oldest first.  An entry of [stdout] is the argument of one
    call of [print]; it may hold newlines of its own. *)
Record world : Type := {
  sent : list request;
  stdout : list string
}.

Definition send (r : request) (w : world) : world :=
  {| sent := sent w ++ [r]; stdout := stdout w |}.

Definition print (line : string) (w : world) : world :=
  {| sent := sent w; stdout := stdout w ++ [line] |}.

(** ** [search_songs], lines 83-93: the request *)

(** Lines 88-91. *)
Definition build_endpoint (self : GetSongBPMClient) (artist : option string)
    (bpm_min bpm_max : Z) : string :=
  match artist with
  | Some a =>
      if truthy_str artist
      then base_url self ++ "/artist/" ++ a ++ "/tempo/"
             ++ str_int bpm_min ++ "/" ++ str_int bpm_max ++ "/"
      else base_url self ++ "/tempo/" ++ str_int bpm_min ++ "/" ++ str_int bpm_max ++ "/"
  | None => base_url self ++ "/tempo/" ++ str_int bpm_min ++ "/" ++ str_int bpm_max ++ "/"
  end.

Definition build_request (self : GetSongBPMClient) (q : QuerySpec) : request :=
  let bpm_min := bpm q - bpm_tolerance q in
  let bpm_max := bpm q + bpm_tolerance q in
  {| endpoint := build_endpoint self (artist q) bpm_min bpm_max;
     req_headers := headers self;
     params := [("limit", limit q)] |}.

(** ** [search_songs], lines 99-118: the result filter *)

(** Line 99: [data.get("tempo", []) if "tempo" in data else data.get("search", [])].
    A list or a string supports [in] but has no [get]; the other non-dict
    values do not support [in]. *)
Definition extract_songs (data : json) : outcome json :=
  match data with
  | JDict d =>
      if dict_contains d "tempo"
      then Return (dict_get d "tempo" (JList []))
      else Return (dict_get d "search" (JList []))
  | JList _ | JStr _ => Raise AttributeError
  | _ => Raise TypeError
  end.

(** Line 105, the condition of the [if]:
    [genre and song.get("genre", "").lower() != genre.lower()]. *)
Definition genre_mismatch (q : QuerySpec) (song : json) : outcome bool :=
  match genre q with
  | Some g =>
      if truthy_str (genre q)
      then v <- py_get song "genre" (JStr "") ;;
           s <- py_lower v ;;
           Return (negb (String.eqb s (lower g)))
      else Return false
  | None => Return false
  end.

(** [bound and test(bound)] for an [Optional[float]] bound, as a condition. *)
Definition float_and (bound : option Q) (test : Q -> outcome bool) : outcome bool :=
  match bound with
  | Some b => if truthy_float bound then test b else Return false
  | None => Return false
  end.

(** Lines 109-114: [true] when one of the two [continue] is taken. *)
Definition danceability_out (q : QuerySpec) (song : json) : outcome bool :=
  if (is_not_None (danceability_min q) || is_not_None (danceability_max q))%bool
  then danceability <- py_get song "danceability" (JNum 0) ;;
       below <- float_and (danceability_min q) (py_lt danceability) ;;
       if below then Return true
       else float_and (danceability_max q) (py_gt danceability)
  else Return false.

(** Lines 104-116, one turn of the loop: [true] when the song reaches
    [filtered_songs.append(song)], [false] when a [continue] is taken. *)
Definition loop_body (q : QuerySpec) (song : json) : outcome bool :=
  skip <- genre_mismatch q song ;;
  if skip then Return false
  else skip' <- danceability_out q song ;;
       Return (negb skip').

(** Lines 102-116: the loop, with [filtered_songs] as accumulator. *)
Fixpoint for_songs (q : QuerySpec) (filtered_songs songs : list json)
    : outcome (list json) :=
  match songs with
  | [] => Return filtered_songs
  | song :: rest =>
      keep <- loop_body q song ;;
      if keep then for_songs q (filtered_songs ++ [song]) rest
      else for_songs q filtered_songs rest
  end.

(** Lines 102-118 on the items that the loop visits: filter, then
    [filtered_songs[:limit]]. *)
Definition result_filter (q : QuerySpec) (songs : list json) : outcome (list json) :=
  filtered_songs <- for_songs q [] songs ;;
  Return (py_slice_to filtered_songs (limit q)).

(** ** [search_songs] *)

(** The whole method.  [transport] is the remote service as seen through
    [requests]; an exception that is not caught by line 120 is the
    [Raise] of the result. *)
Definition search_songs (self : GetSongBPMClient) (transport : request -> reply)
    (q : QuerySpec) (w : world) : world * outcome (list json) :=
  let r := build_request self q in
  let w1 := send r w in
  match transport r with
  | Body data =>
      (w1, songs <- extract_songs data ;;
           items <- py_iter songs ;;
           result_filter q items)
  | Failed e => (print ("Error searching songs: " ++ e) w1, Return [])
  end.

(** ** Vocabulary of the specification *)

(** The field of a record, when the record is a mapping that has it. *)
Definition song_field (song : json) (key : string) : option json :=
  match song with
  | JDict d => dict_lookup d key
  | _ => None
  end.

(** A SongRecord as the data model types it: a mapping whose genre, when
    present, is a string and whose danceability, when present, is a number. *)
Definition is_song_record (song : json) : bool :=
  match song with
  | JDict d =>
      match dict_lookup d "genre" with
      | None | Some (JStr _) => true
      | Some _ => false
      end
      &&
      match dict_lookup d "danceability" with
      | None | Some (JNum _) => true
      | Some _ => false
      end
  | _ => false
  end.

(** The record's danceability, a missing value treated as 0. *)
Definition danceability_or_0 (song : json) : Q :=
  match song_field song "danceability" with
  | Some (JNum x) => x
  | _ => 0%Q
  end.

(** The danceability of a SongRecord lies in [0,1] when present. *)
Definition danceability_in_range (song : json) : Prop :=
  (0 <= danceability_or_0 song /\ danceability_or_0 song <= 1)%Q.

(** The record has a genre and it equals [g] once [str.lower] has been
    applied to both: the comparison that ignores letter case. *)
Definition genre_equals (g : string) (song : json) : bool :=
  match song_field song "genre" with
  | Some (JStr s) => String.eqb (lower s) (lower g)
  | _ => false
  end.

(** [l1] is [l2] with some items left out, the others in their order. *)
Inductive subseq {A : Type} : list A -> list A -> Prop :=
| subseq_nil : subseq [] []
| subseq_drop : forall x l1 l2, subseq l1 l2 -> subseq l1 (x :: l2)
| subseq_take : forall x l1 l2, subseq l1 l2 -> subseq (x :: l1) (x :: l2).

(** The outcome of one turn of the loop as a boolean, and the turns that
    raise nothing. *)
Definition kept (q : QuerySpec) (song : json) : bool :=
  match loop_body q song with
  | Return true => true
  | _ => false
  end.

Definition runs (q : QuerySpec) (song : json) : Prop :=
  exists b, loop_body q song = Return b.

(** [q] with another artist, the rest unchanged. *)
Definition with_artist (q : QuerySpec) (a : option string) : QuerySpec :=
  {| bpm := bpm q; bpm_tolerance := bpm_tolerance q; genre := genre q;
     artist := a; danceability_min := danceability_min q;
     danceability_max := danceability_max q; limit := limit q |}.

(** The defaults of [search_songs], line 61-67. *)
Definition default_query : QuerySpec :=
  {| bpm := 180; bpm_tolerance := 5; genre := None; artist := None;
     danceability_min := None; danceability_max := None; limit := 20 |}.

(** ** Derived forms used in the statements *)

(** The paths of the two endpoints, as the f-strings of lines 89 and 91
    lay them out after [base_url]. *)
Definition tempo_path (bpm_min bpm_max : Z) : string :=
  "/tempo/" ++ str_int bpm_min ++ "/" ++ str_int bpm_max ++ "/".

Definition artist_tempo_path (a : string) (bpm_min bpm_max : Z) : string :=
  "/artist/" ++ a ++ tempo_path bpm_min bpm_max.

(** The characters of a numeral: digits and the minus sign, never a slash. *)
Fixpoint no_slash (s : string) : bool :=
  match s with
  | EmptyString => true
  | String c rest => negb (Ascii.eqb c "/") && no_slash rest
  end.

(** The two [continue] of lines 111-114 as conditions on the number. *)
Definition below_min (q : QuerySpec) (x : Q) : bool :=
  match danceability_min q with
  | Some lo => truthy_float (Some lo) && Qlt_bool x lo
  | None => false
  end.

Definition above_max (q : QuerySpec) (x : Q) : bool :=
  match danceability_max q with
  | Some hi => truthy_float (Some hi) && Qlt_bool hi x
  | None => false
  end.

Definition danceability_passes (q : QuerySpec) (song : json) : bool :=
  negb (below_min q (danceability_or_0 song))
  && negb (above_max q (danceability_or_0 song)).

(** ** Inputs of the examples *)

Definition fresh : world := {| sent := []; stdout := [] |}.

(** A service that answers every request with an empty result list. *)
Definition silent_service (_ : request) : reply := Body (JDict [("tempo", JList [])]).

(** A service that cannot be reached. *)
Definition down_service (_ : request) : reply := Failed "connection refused".

(** Example 3 of [main]: [search_songs(bpm=180, bpm_tolerance=10, artist="Daft Punk", limit=5)]. *)
Definition daft_punk_query : QuerySpec :=
  {| bpm := 180; bpm_tolerance := 10; genre := None; artist := Some "Daft Punk";
     danceability_min := None; danceability_max := None; limit := 5 |}.

Definition rock_song : json := JDict [("genre", JStr "Rock"); ("danceability", JNum 0.5)].
Definition pop_song : json := JDict [("genre", JStr "Pop")].

(** [search_songs(bpm=180, bpm_tolerance=5, genre="rock")]. *)
Definition rock_query : QuerySpec :=
  {| bpm := 180; bpm_tolerance := 5; genre := Some "rock"; artist := None;
     danceability_min := None; danceability_max := None; limit := 20 |}.

(** [search_songs(genre="")]. *)
Definition empty_genre_query : QuerySpec :=
  {| bpm := 180; bpm_tolerance := 5; genre := Some ""; artist := None;
     danceability_min := None; danceability_max := None; limit := 20 |}.

(** [search_songs(danceability_min=0.7)]. *)
Definition danceable_query : QuerySpec :=
  {| bpm := 180; bpm_tolerance := 5; genre := None; artist := None;
     danceability_min := Some 0.7%Q; danceability_max := None; limit := 20 |}.

(** [search_songs(danceability_max=0.0)]. *)
Definition zero_max_query : QuerySpec :=
  {| bpm := 180; bpm_tolerance := 5; genre := None; artist := None;
     danceability_min := None; danceability_max := Some 0%Q; limit := 20 |}.

(** Five records and the query [search_songs(danceability_min=0.7, limit=2)]. *)
Definition five_songs : list json :=
  [JDict [("song_id", JStr "a"); ("danceability", JNum 0.9)];
   JDict [("song_id", JStr "b"); ("danceability", JNum 0.2)];
   JDict [("song_id", JStr "c"); ("danceability", JNum 0.8)];
   JDict [("song_id", JStr "d")];
   JDict [("song_id", JStr "e"); ("danceability", JNum 1)]].

Definition two_danceable_query : QuerySpec :=
  {| bpm := 180; bpm_tolerance := 5; genre := None; artist := None;
     danceability_min := Some 0.7%Q; danceability_max := None; limit := 2 |}.

Definition first_two_danceable : list json :=
  [JDict [("song_id", JStr "a"); ("danceability", JNum 0.9)];
   JDict [("song_id", JStr "c"); ("danceability", JNum 0.8)]].

(** ** The other methods of the client *)

(** What one call does to the [world], and what it returns or raises. *)
Definition io (A : Type) : Type := world -> world * outcome A.

Definition io_ret {A : Type} (a : A) : io A := fun w => (w, Return a).

Definition io_bind {A B : Type} (m : io A) (k : A -> io B) : io B :=
  fun w =>
    match m w with
    | (w1, Return a) => k a w1
    | (w1, Raise x) => (w1, Raise x)
    end.

Definition io_lift {A : Type} (m : outcome A) : io A := fun w => (w, m).

Definition io_print (line : string) : io unit := fun w => (print line w, Return tt).

Notation "x <~ m ;; k" := (io_bind m (fun x => k))
  (at level 61, m at next level, right associativity).

(** [search_by_tempo], lines 44-58: the request of lines 44-52, then the
    call.  The value of [data.get("search", [])] is returned as it is. *)
Definition search_request (self : GetSongBPMClient) (bpm_min bpm_max limit : Z)
    : request :=
  {| endpoint := base_url self ++ "/search/";
     req_headers := headers self;
     params := [("bpm_min", bpm_min); ("bpm_max", bpm_max); ("limit", limit)] |}.

Definition search_by_tempo (self : GetSongBPMClient) (transport : request -> reply)
    (bpm_min bpm_max limit : Z) : io json :=
  fun w =>
    let r := search_request self bpm_min bpm_max limit in
    let w1 := send r w in
    match transport r with
    | Body data => (w1, py_get data "search" (JList []))
    | Failed e => (print ("Error searching by tempo: " ++ e) w1, Return (JList []))
    end.

(** [get_song_details], lines 134-143: the request of lines 134-137, which
    has no [params], then the call. *)
Definition song_request (self : GetSongBPMClient) (song_id : string) : request :=
  {| endpoint := base_url self ++ "/song/" ++ song_id ++ "/";
     req_headers := headers self;
     params := [] |}.

Definition get_song_details (self : GetSongBPMClient) (transport : request -> reply)
    (song_id : string) : io json :=
  fun w =>
    let r := song_request self song_id in
    let w1 := send r w in
    match transport r with
    | Body data => (w1, py_get data "song" (JDict []))
    | Failed e => (print ("Error getting song details: " ++ e) w1, Return (JDict []))
    end.

(** ** [display_results], lines 153-176 *)

(** [bool(v)]. *)
Definition py_truthy (v : json) : bool :=
  match v with
  | JNull => false
  | JBool b => b
  | JNum x => negb (Qeq_bool x 0)
  | JStr s => negb (String.eqb s "")
  | JList l => match l with [] => false | _ :: _ => true end
  | JDict d => match d with [] => false | _ :: _ => true end
  end.

(** [f"{v}"]: a string is laid out as it is, [None], [True] and [False]
    under their names; [render] stands for the text Python gives a number,
    a list or a dict. *)
Definition py_str (render : json -> string) (v : json) : string :=
  match v with
  | JStr s => s
  | JNull => "None"
  | JBool true => "True"
  | JBool false => "False"
  | _ => render v
  end.

(** The newline character, and the rule of 80 dashes of lines 158 and 176. *)
Definition nl : string := String (ascii_of_nat 10) EmptyString.

Definition rule80 : string := string_of_list_ascii (repeat "-"%char 80).

(** Lines 165-172, one of the four optional fields:
    [if verbose or song.get(key): print(f"   {label}: {song.get(key, 'N/A')}")]. *)
Definition optional_line (render : json -> string) (verbose : bool) (song : json)
    (key label : string) : io unit :=
  shown <~ (if verbose then io_ret true
            else v <~ io_lift (py_get song key JNull) ;; io_ret (py_truthy v)) ;;
  if shown
  then v <~ io_lift (py_get song key (JStr "N/A")) ;;
       io_print ("   " ++ label ++ ": " ++ py_str render v)
  else io_ret tt.

(** Lines 161-174, one turn of the loop for the song numbered [i]. *)
Definition display_song (render : json -> string) (verbose : bool) (i : Z)
    (song : json) : io unit :=
  title <~ io_lift (py_get song "song_title" (JStr "Unknown")) ;;
  artist' <~ io_lift (py_get song "artist" (JDict [])) ;;
  name <~ io_lift (py_get artist' "name" (JStr "Unknown Artist")) ;;
  _ <~ io_print (nl ++ str_int i ++ ". " ++ py_str render title ++ " - " ++ py_str render name) ;;
  tempo <~ io_lift (py_get song "tempo" (JStr "N/A")) ;;
  _ <~ io_print ("   BPM: " ++ py_str render tempo) ;;
  album <~ io_lift (py_get song "album" (JDict [])) ;;
  album_title <~ io_lift (py_get album "title" (JStr "N/A")) ;;
  _ <~ io_print ("   Album: " ++ py_str render album_title) ;;
  _ <~ optional_line render verbose song "danceability" "Danceability" ;;
  _ <~ optional_line render verbose song "energy" "Energy" ;;
  _ <~ optional_line render verbose song "key" "Key" ;;
  _ <~ optional_line render verbose song "genre" "Genre" ;;
  id <~ io_lift (py_get song "song_id" JNull) ;;
  if py_truthy id
  then id' <~ io_lift (py_get song "song_id" JNull) ;;
       io_print ("   Song ID: " ++ py_str render id')
  else io_ret tt.

(** Lines 160-174: [for i, song in enumerate(songs, 1)], entered at [i]. *)
Fixpoint display_songs (render : json -> string) (verbose : bool) (i : Z)
    (songs : list json) : io unit :=
  match songs with
  | [] => io_ret tt
  | song :: rest =>
      _ <~ display_song render verbose i song ;;
      display_songs render verbose (i + 1) rest
  end.

(** Line 157: [f"\nFound {len(songs)} songs:\n"]. *)
Definition found_line (songs : list json) : string :=
  nl ++ "Found " ++ str_int (Z.of_nat (List.length songs)) ++ " songs:" ++ nl.

(** [display_results] on a list of songs. *)
Definition display_results (render : json -> string) (songs : list json)
    (verbose : bool) : io unit :=
  match songs with
  | [] => io_print "No songs found matching your criteria."
  | _ :: _ =>
      _ <~ io_print (found_line songs) ;;
      _ <~ io_print rule80 ;;
      _ <~ display_songs render verbose 1 songs ;;
      io_print rule80
  end.

(** ** Vocabulary for the other methods *)

(** The world after some more lines have been printed. *)
Definition emit (lines : list string) (w : world) : world :=
  {| sent := sent w; stdout := stdout w ++ lines |}.

(** A song that [display_results] can lay out: a mapping whose artist and
    album, when present, are mappings. *)
Definition displayable (song : json) : bool :=
  match song with
  | JDict d =>
      match dict_lookup d "artist" with
      | None | Some (JDict _) => true
      | Some _ => false
      end
      &&
      match dict_lookup d "album" with
      | None | Some (JDict _) => true
      | Some _ => false
      end
  | _ => false
  end.

(** [v.get(key, default)] where [v] is known to be a mapping. *)
Definition sub_get (v : json) (key : string) (default : json) : json :=
  match v with
  | JDict d => dict_get d key default
  | _ => default
  end.

(** The lines of an optional field. *)
Definition optional_block (render : json -> string) (verbose : bool)
    (d : list (string * json)) (key label : string) : list string :=
  if (verbose || py_truthy (dict_get d key JNull))%bool
  then ["   " ++ label ++ ": " ++ py_str render (dict_get d key (JStr "N/A"))]
  else [].

(** The lines that the song numbered [i] is laid out on. *)
Definition song_block (render : json -> string) (verbose : bool) (i : Z)
    (song : json) : list string :=
  match song with
  | JDict d =>
      [nl ++ str_int i ++ ". "
         ++ py_str render (dict_get d "song_title" (JStr "Unknown")) ++ " - "
         ++ py_str render (sub_get (dict_get d "artist" (JDict [])) "name"
                             (JStr "Unknown Artist"));
       "   BPM: " ++ py_str render (dict_get d "tempo" (JStr "N/A"));
       "   Album: "
         ++ py_str render (sub_get (dict_get d "album" (JDict [])) "title" (JStr "N/A"))]
      ++ optional_block render verbose d "danceability" "Danceability"
      ++ optional_block render verbose d "energy" "Energy"
      ++ optional_block render verbose d "key" "Key"
      ++ optional_block render verbose d "genre" "Genre"
      ++ (if py_truthy (dict_get d "song_id" JNull)
          then ["   Song ID: " ++ py_str render (dict_get d "song_id" JNull)]
          else [])
  | _ => []
  end.

(** The lines of the songs numbered from [i] on. *)
Fixpoint song_blocks (render : json -> string) (verbose : bool) (i : Z)
    (songs : list json) : list string :=
  match songs with
  | [] => []
  | song :: rest =>
      (song_block render verbose i song ++ song_blocks render verbose (i + 1) rest)%list
  end.

(** [q] with another genre, the rest unchanged. *)
Definition with_genre (q : QuerySpec) (g : option string) : QuerySpec :=
  {| bpm := bpm q; bpm_tolerance := bpm_tolerance q; genre := g;
     artist := artist q; danceability_min := danceability_min q;
     danceability_max := danceability_max q; limit := limit q |}.

(** [q] with another limit, the rest unchanged. *)
Definition with_limit (q : QuerySpec) (n : Z) : QuerySpec :=
  {| bpm := bpm q; bpm_tolerance := bpm_tolerance q; genre := genre q;
     artist := artist q; danceability_min := danceability_min q;
     danceability_max := danceability_max q; limit := n |}.

(** No client-side filter is asked for. *)
Definition no_filter (q : QuerySpec) : bool :=
  negb (truthy_str (genre q))
  && negb (is_not_None (danceability_min q))
  && negb (is_not_None (danceability_max q)).

(** A service whose body has both keys. *)
Definition two_key_service (_ : request) : reply :=
  Body (JDict [("search", JList [pop_song]); ("tempo", JList [rock_song])]).

(** A service that has no song for the range and says so with an object
    where the list would be. *)
Definition no_result_service (_ : request) : reply :=
  Body (JDict [("tempo", JDict [("error", JStr "no result")])]).

(** [search_songs(danceability_max=0.5)]. *)
Definition calm_query : QuerySpec :=
  {| bpm := 180; bpm_tolerance := 5; genre := None; artist := None;
     danceability_min := None; danceability_max := Some 0.5%Q; limit := 20 |}.

(** A service that answers every request with three songs under "search". *)
Definition three_song_service (_ : request) : reply :=
  Body (JDict [("search", JList [rock_song; pop_song; rock_song])]).

(** The step that [main] repeats at lines 192-197, 206-212, 221-227 and
    255-264: [songs = client.search_songs(...)], then
    [client.display_results(songs, verbose)]. *)
Definition search_then_display (render : json -> string) (self : GetSongBPMClient)
    (transport : request -> reply) (q : QuerySpec) (verbose : bool) : io unit :=
  songs <~ search_songs self transport q ;;
  display_results render songs verbose.

(** All that [display_results] prints for songs that can be laid out. *)
Definition results_layout (render : json -> string) (songs : list json)
    (verbose : bool) : list string :=
  match songs with
  | [] => ["No songs found matching your criteria."]
  | _ :: _ =>
      (found_line songs :: rule80 :: song_blocks render verbose 1 songs ++ [rule80])%list
  end.

(** * Properties *)

(** What is used of Python's case mapping: the lower-cased form of a text
    that is not empty is not empty. *)
Hypothesis unicode_lower_nonempty : forall s, s <> "" -> unicode_lower s <> "".

Create HintDb pacer.
#[local] Hint Constructors subseq : pacer.

(** ** Subsequences *)

Section Subseq.
Context {A : Type}.

Lemma subseq_nil_l (l : list A) : subseq [] l.
Proof. induction l; auto with pacer. Qed.

Lemma subseq_filter (f : A -> bool) (l : list A) : subseq (filter f l) l.
Proof.
  induction l as [|x l IH]; simpl; [constructor|].
  destruct (f x); auto with pacer.
Qed.

Lemma subseq_firstn (n : nat) (l : list A) : subseq (firstn n l) l.
Proof.
  revert n; induction l as [|x l IH]; intros [|n]; simpl;
    auto using subseq_nil_l with pacer.
Qed.

Lemma subseq_trans (l1 l2 l3 : list A) :
  subseq l1 l2 -> subseq l2 l3 -> subseq l1 l3.
Proof.
  intros H12 H23; revert l1 H12.
  induction H23 as [|x l2 l3 _ IH|x l2 l3 _ IH]; intros l1 H12.
  - exact H12.
  - auto with pacer.
  - inversion H12; subst; auto with pacer.
Qed.

Lemma subseq_In (l1 l2 : list A) (x : A) : subseq l1 l2 -> In x l1 -> In x l2.
Proof.
  induction 1 as [|y l1 l2 _ IH|y l1 l2 _ IH]; simpl; intuition.
Qed.

Lemma py_slice_to_subseq (l : list A) (n : Z) : subseq (py_slice_to l n) l.
Proof. unfold py_slice_to; destruct (0 <=? n); apply subseq_firstn. Qed.

Lemma py_slice_to_length (l : list A) (n : Z) :
  0 <= n -> Z.of_nat (List.length (py_slice_to l n)) <= n.
Proof.
  intros Hn; unfold py_slice_to.
  destruct (Z.leb_spec 0 n); [|lia].
  pose proof (firstn_le_length (Z.to_nat n) l); lia.
Qed.

Lemma py_slice_to_idem (l : list A) (n : Z) :
  0 <= n -> py_slice_to (py_slice_to l n) n = py_slice_to l n.
Proof.
  intros Hn; unfold py_slice_to.
  destruct (Z.leb_spec 0 n); [|lia].
  rewrite firstn_firstn; f_equal; lia.
Qed.

Lemma filter_subseq_all (f : A -> bool) (l1 l2 : list A) :
  subseq l1 l2 -> filter f l2 = l2 -> filter f l1 = l1.
Proof.
  intros Hs Hf.
  apply forallb_filter_id, forallb_forall; intros x Hx.
  apply (subseq_In x Hs) in Hx.
  rewrite <- Hf in Hx; apply filter_In in Hx; tauto.
Qed.
End Subseq.

(** ** The loop as a filter *)

Unset Implicit Arguments.

Lemma for_songs_filter (q : QuerySpec) (songs : list json) :
  forall acc, Forall (runs q) songs ->
  for_songs q acc songs = Return (acc ++ filter (kept q) songs)%list.
Proof.
  induction songs as [|song rest IH]; intros acc Hruns; simpl.
  - now rewrite app_nil_r.
  - inversion Hruns as [|? ? [b Hb] Hrest]; subst.
    unfold kept at 1; rewrite Hb; simpl.
    destruct b.
    + rewrite IH by assumption. now rewrite <- app_assoc.
    + now apply IH.
Qed.

Lemma for_songs_runs (q : QuerySpec) (songs : list json) :
  forall acc out, for_songs q acc songs = Return out -> Forall (runs q) songs.
Proof.
  induction songs as [|song rest IH]; intros acc out H; constructor.
  - simpl in H. destruct (loop_body q song) as [b|x] eqn:E; [|discriminate].
    now exists b.
  - simpl in H. destruct (loop_body q song) as [[|]|x]; simpl in H;
      try discriminate; eapply IH; eassumption.
Qed.

Lemma result_filter_total (q : QuerySpec) (songs : list json) :
  Forall (runs q) songs ->
  result_filter q songs = Return (py_slice_to (filter (kept q) songs) (limit q)).
Proof.
  intros H; unfold result_filter.
  now rewrite (for_songs_filter q songs [] H).
Qed.

Lemma result_filter_Return (q : QuerySpec) (songs out : list json) :
  result_filter q songs = Return out ->
  Forall (runs q) songs /\ out = py_slice_to (filter (kept q) songs) (limit q).
Proof.
  intros H.
  assert (Hruns : Forall (runs q) songs).
  { unfold result_filter in H.
    destruct (for_songs q [] songs) as [f|x] eqn:E; [|discriminate].
    eapply for_songs_runs; eassumption. }
  split; [assumption|].
  rewrite (result_filter_total q songs Hruns) in H. congruence.
Qed.

Lemma kept_runs (q : QuerySpec) (song : json) : kept q song = true -> runs q song.
Proof.
  unfold kept, runs. destruct (loop_body q song) as [b|x]; [|discriminate].
  intros _; now exists b.
Qed.

(** ** One turn of the loop on a SongRecord *)

Lemma lower_nonempty (s : string) : s <> "" -> lower s <> "".
Proof.
  intros Hs. unfold lower. destruct (is_ascii s).
  - destruct s; simpl; [tauto|discriminate].
  - now apply unicode_lower_nonempty.
Qed.

Lemma truthy_str_Some (g : string) : g <> "" -> truthy_str (Some g) = true.
Proof. destruct g; simpl; tauto. Qed.

Lemma genre_mismatch_falsy (q : QuerySpec) (song : json) :
  truthy_str (genre q) = false -> genre_mismatch q song = Return false.
Proof.
  unfold genre_mismatch. destruct (genre q); [intros ->|]; reflexivity.
Qed.

Lemma genre_mismatch_record (q : QuerySpec) (g : string) (song : json) :
  genre q = Some g -> g <> "" -> is_song_record song = true ->
  genre_mismatch q song = Return (negb (genre_equals g song)).
Proof.
  intros Hg Hne Hrec. unfold genre_mismatch. rewrite Hg, truthy_str_Some by assumption.
  destruct song as [| | | | |d]; try discriminate.
  unfold genre_equals; simpl in *. unfold dict_get.
  apply andb_true_iff in Hrec as [Hgenre _].
  destruct (dict_lookup d "genre") as [[]|]; try discriminate;
    try reflexivity.
  change (Return (negb (String.eqb "" (lower g))) = Return (negb false)).
  destruct (String.eqb_spec "" (lower g)) as [E|_]; [|reflexivity].
  symmetry in E. now apply lower_nonempty in E.
Qed.

Lemma float_and_lt (q : QuerySpec) (x : Q) :
  float_and (danceability_min q) (py_lt (JNum x)) = Return (below_min q x).
Proof.
  unfold float_and, below_min.
  destruct (danceability_min q) as [lo|]; [|reflexivity].
  destruct (truthy_float (Some lo)); reflexivity.
Qed.

Lemma float_and_gt (q : QuerySpec) (x : Q) :
  float_and (danceability_max q) (py_gt (JNum x)) = Return (above_max q x).
Proof.
  unfold float_and, above_max.
  destruct (danceability_max q) as [hi|]; [|reflexivity].
  destruct (truthy_float (Some hi)); reflexivity.
Qed.

Lemma danceability_out_record (q : QuerySpec) (song : json) :
  is_song_record song = true ->
  danceability_out q song = Return (negb (danceability_passes q song)).
Proof.
  intros Hrec. destruct song as [| | | | |d]; try discriminate.
  simpl in Hrec. apply andb_true_iff in Hrec as [_ Hd].
  unfold danceability_out, danceability_passes, danceability_or_0; simpl.
  unfold dict_get.
  destruct (is_not_None (danceability_min q) || is_not_None (danceability_max q))%bool eqn:Hset.
  - assert (E : forall x, (x' <- Return (JNum x) ;;
               below <- float_and (danceability_min q) (py_lt x') ;;
               if below then Return true
               else float_and (danceability_max q) (py_gt x'))
              = Return (negb (negb (below_min q x) && negb (above_max q x)))).
    { intros x; simpl. rewrite float_and_lt; simpl.
      destruct (below_min q x); simpl; [reflexivity|].
      rewrite float_and_gt. now rewrite negb_involutive. }
    destruct (dict_lookup d "danceability") as [[]|]; try discriminate; apply E.
  - apply orb_false_iff in Hset as [Hmin Hmax].
    unfold below_min, above_max.
    destruct (danceability_min q); [discriminate|].
    destruct (danceability_max q); [discriminate|]. reflexivity.
Qed.

Lemma genre_mismatch_returns (q : QuerySpec) (song : json) :
  is_song_record song = true -> exists b, genre_mismatch q song = Return b.
Proof.
  intros Hrec. destruct song as [| | | | |d]; try discriminate.
  simpl in Hrec. apply andb_true_iff in Hrec as [Hgenre _].
  unfold genre_mismatch, py_get, dict_get.
  destruct (genre q) as [g|]; [|eauto].
  destruct (truthy_str (Some g)); [|eauto].
  destruct (dict_lookup d "genre") as [[]|]; try discriminate; simpl; eauto.
Qed.

Lemma song_record_runs (q : QuerySpec) (song : json) :
  is_song_record song = true -> runs q song.
Proof.
  intros Hrec. unfold runs, loop_body.
  rewrite (danceability_out_record q song Hrec).
  destruct (genre_mismatch_returns q song Hrec) as [b ->]. simpl.
  destruct b; eauto.
Qed.

Lemma song_records_run (q : QuerySpec) (songs : list json) :
  Forall (fun s => is_song_record s = true) songs -> Forall (runs q) songs.
Proof. apply Forall_impl; intros s; apply song_record_runs. Qed.

Lemma kept_record_genre (q : QuerySpec) (g : string) (song : json) :
  genre q = Some g -> g <> "" -> is_song_record song = true ->
  kept q song = (genre_equals g song && danceability_passes q song)%bool.
Proof.
  intros Hg Hne Hrec. unfold kept, loop_body.
  rewrite (genre_mismatch_record q g song Hg Hne Hrec), (danceability_out_record q song Hrec).
  simpl. destruct (genre_equals g song); simpl; [|reflexivity].
  rewrite negb_involutive. now destruct (danceability_passes q song).
Qed.

Lemma kept_record_passes (q : QuerySpec) (song : json) :
  is_song_record song = true -> kept q song = true ->
  danceability_passes q song = true.
Proof.
  intros Hrec. unfold kept, loop_body.
  rewrite (danceability_out_record q song Hrec).
  destruct (genre_mismatch q song) as [[|]|]; simpl; try discriminate.
  rewrite negb_involutive. now destruct (danceability_passes q song).
Qed.

(** ** Strings and decimal numerals *)

Lemma append_assoc (a b c : string) : (a ++ b) ++ c = a ++ (b ++ c).
Proof. induction a as [|x a IH]; simpl; [reflexivity|now rewrite IH]. Qed.

Lemma append_inv_head (p a b : string) : p ++ a = p ++ b -> a = b.
Proof.
  induction p as [|x p IH]; simpl; intros H; [assumption|].
  injection H as H. now apply IH.
Qed.

Lemma no_slash_uint (d : Decimal.uint) : no_slash (NilEmpty.string_of_uint d) = true.
Proof. induction d; simpl; auto. Qed.

Lemma no_slash_str_int (n : Z) : no_slash (str_int n) = true.
Proof.
  unfold str_int.
  destruct (Z.to_int n) as [d|d]; simpl; destruct d; simpl;
    try reflexivity; apply no_slash_uint.
Qed.

Lemma str_int_inj (n m : Z) : str_int n = str_int m -> n = m.
Proof.
  assert (Hparse : forall z, NilZero.int_of_string (str_int z) = Some (Z.to_int z)).
  { intros z; unfold str_int; apply NilZero.isi; destruct z; simpl;
      try discriminate; intros [= H];
      now apply (DecimalPos.Unsigned.to_uint_nonnil p). }
  intros H. apply (f_equal NilZero.int_of_string) in H.
  rewrite !Hparse in H. injection H as H. now apply DecimalZ.to_int_inj.
Qed.

(** A slash-free head is cut off at the first slash in one way only. *)
Lemma append_slash_inv (s1 s2 r1 r2 : string) :
  no_slash s1 = true -> no_slash s2 = true ->
  s1 ++ String "/" r1 = s2 ++ String "/" r2 -> s1 = s2 /\ r1 = r2.
Proof.
  revert s2; induction s1 as [|c s1 IH]; intros [|c' s2]; simpl; intros H1 H2 H.
  - injection H as H. now split.
  - injection H as Hc _. subst c'. discriminate.
  - injection H as Hc _. subst c. discriminate.
  - injection H as Hc H. subst c'.
    apply andb_true_iff in H1 as [_ H1]. apply andb_true_iff in H2 as [_ H2].
    destruct (IH s2 H1 H2 H) as [-> ->]. now split.
Qed.

(** A tempo path names one range only. *)
Lemma tempo_path_inj (lo hi lo' hi' : Z) :
  tempo_path lo hi = tempo_path lo' hi' -> lo = lo' /\ hi = hi'.
Proof.
  unfold tempo_path; intros H.
  apply (append_inv_head "/tempo/") in H.
  apply append_slash_inv in H as [Hlo H]; try apply no_slash_str_int.
  apply append_slash_inv in H as [Hhi _]; try apply no_slash_str_int.
  split; now apply str_int_inj.
Qed.

Lemma build_endpoint_truthy (self : GetSongBPMClient) (a : string) (lo hi : Z) :
  a <> "" ->
  build_endpoint self (Some a) lo hi = base_url self ++ artist_tempo_path a lo hi.
Proof.
  intros Ha. unfold build_endpoint. rewrite truthy_str_Some by assumption.
  unfold artist_tempo_path, tempo_path. reflexivity.
Qed.

Lemma build_endpoint_falsy (self : GetSongBPMClient) (a : option string) (lo hi : Z) :
  truthy_str a = false ->
  build_endpoint self a lo hi = base_url self ++ tempo_path lo hi.
Proof.
  intros Ha. unfold build_endpoint. destruct a; [rewrite Ha|]; reflexivity.
Qed.

Lemma artist_path_not_tempo_path (a : string) (lo hi lo' hi' : Z) :
  artist_tempo_path a lo hi <> tempo_path lo' hi'.
Proof. unfold artist_tempo_path, tempo_path; simpl; discriminate. Qed.

(** [search_songs] issues one request, the one of lines 83-93. *)
Lemma search_songs_sent (self : GetSongBPMClient) (transport : request -> reply)
    (q : QuerySpec) (w : world) :
  sent (fst (search_songs self transport q w)) = (sent w ++ [build_request self q])%list.
Proof.
  unfold search_songs. destruct (transport (build_request self q)); reflexivity.
Qed.

(** The filter does not look at the artist. *)
Lemma for_songs_with_artist (q : QuerySpec) (a : option string) (songs : list json) :
  forall acc, for_songs (with_artist q a) acc songs = for_songs q acc songs.
Proof.
  induction songs as [|song rest IH]; intros acc; simpl; [reflexivity|].
  change (loop_body (with_artist q a) song) with (loop_body q song).
  destruct (loop_body q song) as [[|]|]; simpl; auto.
Qed.

(** ** The query builder *)

(** C1, as amended.  With an artist filter that is set and not the empty
    string, [search_songs] sends its request to the artist-scoped tempo
    endpoint, path /artist/{artist}/tempo/{bpm_min}/{bpm_max}/; with no
    artist filter, or with the empty string, it sends it to the general
    tempo-range endpoint, path /tempo/{bpm_min}/{bpm_max}/. *)
Theorem search_songs_endpoint_by_artist (self : GetSongBPMClient)
    (transport : request -> reply) (q : QuerySpec) (w : world) :
  exists r,
    sent (fst (search_songs self transport q w)) = (sent w ++ [r])%list /\
    (forall a, artist q = Some a -> a <> "" ->
       endpoint r = base_url self
         ++ artist_tempo_path a (bpm q - bpm_tolerance q) (bpm q + bpm_tolerance q)) /\
    (artist q = None \/ artist q = Some "" ->
       endpoint r = base_url self
         ++ tempo_path (bpm q - bpm_tolerance q) (bpm q + bpm_tolerance q)).
Proof.
  exists (build_request self q). split; [apply search_songs_sent|].
  unfold build_request; simpl. split.
  - intros a Ha Hne. rewrite Ha. now apply build_endpoint_truthy.
  - intros [Ha|Ha]; rewrite Ha; now apply build_endpoint_falsy.
Qed.

(** C2.  For every bpm b and every tolerance t >= 0 the request that
    [search_songs] sends names the range [b - t, b + t] and no other: its
    endpoint ends with the tempo path of b - t and b + t, the lower end is
    not above the upper end, and no other pair of bounds gives that
    endpoint. *)
Theorem search_songs_bpm_range (self : GetSongBPMClient)
    (transport : request -> reply) (q : QuerySpec) (w : world) :
  0 <= bpm_tolerance q ->
  exists r prefix,
    sent (fst (search_songs self transport q w)) = (sent w ++ [r])%list /\
    endpoint r = prefix
      ++ tempo_path (bpm q - bpm_tolerance q) (bpm q + bpm_tolerance q) /\
    bpm q - bpm_tolerance q <= bpm q + bpm_tolerance q /\
    (forall lo hi, endpoint r = prefix ++ tempo_path lo hi ->
       lo = bpm q - bpm_tolerance q /\ hi = bpm q + bpm_tolerance q).
Proof.
  intros Ht.
  assert (E : exists prefix, endpoint (build_request self q) = prefix
             ++ tempo_path (bpm q - bpm_tolerance q) (bpm q + bpm_tolerance q)).
  { unfold build_request; simpl.
    destruct (artist q) as [a|] eqn:Ha.
    - destruct (string_dec a "") as [->|Hne].
      + exists (base_url self). now apply build_endpoint_falsy.
      + exists (base_url self ++ "/artist/" ++ a).
        rewrite build_endpoint_truthy by assumption.
        unfold artist_tempo_path. now rewrite !append_assoc.
    - exists (base_url self). now apply build_endpoint_falsy. }
  destruct E as [prefix E].
  exists (build_request self q), prefix.
  split; [apply search_songs_sent|]. split; [exact E|]. split; [lia|].
  intros lo hi H. rewrite E in H.
  apply append_inv_head in H. symmetry in H.
  now apply tempo_path_inj in H.
Qed.

(** C10.  With the artist given as the empty string, the request that
    [search_songs] sends goes to the general tempo-range endpoint, and the
    whole call behaves exactly as with no artist at all; an artist value
    with which the request goes to the general endpoint is [None] or the
    empty string. *)
Theorem search_songs_empty_artist_as_absent (self : GetSongBPMClient)
    (transport : request -> reply) (q : QuerySpec) (w : world) :
  (exists r,
     sent (fst (search_songs self transport (with_artist q (Some "")) w))
     = (sent w ++ [r])%list /\
     endpoint r = base_url self
       ++ tempo_path (bpm q - bpm_tolerance q) (bpm q + bpm_tolerance q)) /\
  search_songs self transport (with_artist q (Some "")) w
  = search_songs self transport (with_artist q None) w /\
  (forall a r,
     sent (fst (search_songs self transport (with_artist q a) w))
     = (sent w ++ [r])%list ->
     endpoint r = base_url self
       ++ tempo_path (bpm q - bpm_tolerance q) (bpm q + bpm_tolerance q) ->
     a = None \/ a = Some "").
Proof.
  split; [|split].
  - exists (build_request self (with_artist q (Some ""))).
    split; [apply search_songs_sent|reflexivity].
  - unfold search_songs.
    change (build_request self (with_artist q (Some "")))
      with (build_request self (with_artist q None)).
    destruct (transport (build_request self (with_artist q None))); [reflexivity|].
    f_equal. destruct (extract_songs data) as [songs|]; [|reflexivity]; simpl.
    destruct (py_iter songs) as [items|]; [|reflexivity]; simpl.
    unfold result_filter. now rewrite !for_songs_with_artist.
  - intros a r Hsent Hend.
    rewrite search_songs_sent in Hsent. apply app_inj_tail in Hsent as [_ <-].
    destruct a as [a|]; [|now left]. right.
    destruct (string_dec a "") as [->|Hne]; [reflexivity|exfalso].
    change (endpoint (build_request self (with_artist q (Some a))))
      with (build_endpoint self (Some a) (bpm q - bpm_tolerance q)
              (bpm q + bpm_tolerance q)) in Hend.
    rewrite build_endpoint_truthy in Hend by assumption.
    apply append_inv_head in Hend. now apply artist_path_not_tempo_path in Hend.
Qed.

(** ** Transport failures *)

(** C8.  When the upstream call fails with an exception of the
    [RequestException] family, [search_songs] returns the empty list, raises
    nothing, and reports the failure as one printed line. *)
Theorem search_songs_transport_failure (self : GetSongBPMClient)
    (transport : request -> reply) (q : QuerySpec) (w : world) (e : string) :
  transport (build_request self q) = Failed e ->
  snd (search_songs self transport q w) = Return [] /\
  stdout (fst (search_songs self transport q w))
    = (stdout w ++ [("Error searching songs: " ++ e)%string])%list.
Proof.
  intros H. unfold search_songs. rewrite H. split; reflexivity.
Qed.

(** ** The result filter: predicates *)

Lemma In_py_slice_to {A : Type} (l : list A) (n : Z) (x : A) :
  In x (py_slice_to l n) -> In x l.
Proof. apply subseq_In, py_slice_to_subseq. Qed.

(** C3, as amended.  With a genre filter that is set and not the empty
    string, on every sequence of records the filter returns, cut to the
    limit and in input order, exactly the records whose genre equals the
    filter, letter case ignored, among those that pass the danceability
    checks; every record it returns has that genre, and a record with no
    genre field is never returned.  In particular, with genre filter "rock",
    the input [{genre:"Rock", danceability:0.5}, {genre:"Pop"}] yields
    exactly the first record. *)
Theorem result_filter_genre :
  (forall (q : QuerySpec) (g : string) (songs : list json),
     genre q = Some g -> g <> "" ->
     Forall (fun s => is_song_record s = true) songs ->
     exists out,
       result_filter q songs = Return out /\
       out = py_slice_to
               (filter (fun s => genre_equals g s && danceability_passes q s) songs)
               (limit q) /\
       (forall s, In s out -> genre_equals g s = true) /\
       (forall s, song_field s "genre" = None -> ~ In s out)) /\
  result_filter rock_query [rock_song; pop_song] = Return [rock_song].
Proof.
  split; [|reflexivity].
  intros q g songs Hg Hne Hrec.
  assert (Hout : result_filter q songs
                 = Return (py_slice_to
                     (filter (fun s => genre_equals g s && danceability_passes q s) songs)
                     (limit q))).
  { rewrite result_filter_total by now apply song_records_run.
    do 2 f_equal. apply filter_ext_in; intros s Hs.
    apply kept_record_genre; try assumption.
    now apply (proj1 (Forall_forall _ songs) Hrec). }
  eexists; split; [exact Hout|]. split; [reflexivity|].
  assert (Hin : forall s,
            In s (py_slice_to
                    (filter (fun s => genre_equals g s && danceability_passes q s) songs)
                    (limit q)) -> genre_equals g s = true).
  { intros s Hs. apply In_py_slice_to, filter_In in Hs as [_ Hs].
    now apply andb_true_iff in Hs. }
  split; [exact Hin|].
  intros s Hmissing Hs. apply Hin in Hs.
  unfold genre_equals in Hs. rewrite Hmissing in Hs. discriminate.
Qed.

Lemma Qlt_bool_false (x y : Q) : Qlt_bool x y = false -> (y <= x)%Q.
Proof.
  unfold Qlt_bool; intros H. apply negb_false_iff in H. now apply Qle_bool_iff.
Qed.

Lemma Qlt_bool_compat (x x' y y' : Q) :
  (x == x')%Q -> (y == y')%Q -> Qlt_bool x y = Qlt_bool x' y'.
Proof.
  intros Hx Hy. unfold Qlt_bool. f_equal.
  destruct (Qle_bool y x) eqn:E, (Qle_bool y' x') eqn:E'; try reflexivity.
  - apply Qle_bool_iff in E. rewrite Hx, Hy in E. apply Qle_bool_iff in E. congruence.
  - apply Qle_bool_iff in E'. rewrite <- Hx, <- Hy in E'. apply Qle_bool_iff in E'. congruence.
Qed.

(** What passing the lower-bound check gives: the bound is met, or the bound
    is zero and the check was not made. *)
Lemma below_min_false (q : QuerySpec) (lo x : Q) :
  danceability_min q = Some lo -> below_min q x = false ->
  (lo <= x)%Q \/ (lo == 0)%Q.
Proof.
  unfold below_min; intros ->. simpl.
  destruct (Qeq_bool lo 0) eqn:E; simpl.
  - intros _. right. now apply Qeq_bool_iff.
  - intros H. left. now apply Qlt_bool_false.
Qed.

(** What passing the upper-bound check gives. *)
Lemma above_max_false (q : QuerySpec) (hi x : Q) :
  danceability_max q = Some hi -> above_max q x = false ->
  (x <= hi)%Q \/ (hi == 0)%Q.
Proof.
  unfold above_max; intros ->. simpl.
  destruct (Qeq_bool hi 0) eqn:E; simpl.
  - intros _. right. now apply Qeq_bool_iff.
  - intros H. left. now apply Qlt_bool_false.
Qed.

(** C4.  With a danceability lower bound set, on every sequence of
    SongRecords (danceability in [0,1] when present) the filter returns, and
    every record it returns has a danceability, a missing value counting as
    0, greater than or equal to the bound.  In particular, with
    danceability_min=0.7 the input [{danceability:0.8},{danceability:0.5},{}]
    yields only the first record. *)
Theorem result_filter_danceability_min :
  (forall (q : QuerySpec) (lo : Q) (songs : list json),
     danceability_min q = Some lo ->
     Forall (fun s => is_song_record s = true) songs ->
     Forall danceability_in_range songs ->
     exists out,
       result_filter q songs = Return out /\
       (forall s, In s out -> (lo <= danceability_or_0 s)%Q)) /\
  result_filter danceable_query
    [JDict [("danceability", JNum 0.8)]; JDict [("danceability", JNum 0.5)]; JDict []]
  = Return [JDict [("danceability", JNum 0.8)]].
Proof.
  split; [|reflexivity].
  intros q lo songs Hlo Hrec Hrange.
  eexists; split; [apply result_filter_total; now apply song_records_run|].
  intros s Hs. apply In_py_slice_to, filter_In in Hs as [Hin Hkept].
  apply (proj1 (Forall_forall _ songs) Hrec) in Hin as Hs_rec.
  apply (proj1 (Forall_forall _ songs) Hrange) in Hin as [H0 _].
  apply kept_record_passes in Hkept; [|assumption].
  apply andb_true_iff in Hkept as [Hmin _]. apply negb_true_iff in Hmin.
  destruct (below_min_false q lo _ Hlo Hmin) as [H|H]; [assumption|].
  now rewrite H.
Qed.

(** For an upper bound other than zero the check of line 113 is made:
    every record returned is at or below the bound. *)
Lemma result_filter_danceability_max_nonzero (q : QuerySpec) (hi : Q)
    (songs out : list json) :
  danceability_max q = Some hi -> ~ (hi == 0)%Q ->
  Forall (fun s => is_song_record s = true) songs ->
  result_filter q songs = Return out ->
  forall s, In s out -> (danceability_or_0 s <= hi)%Q.
Proof.
  intros Hhi Hnz Hrec Hout s Hs.
  apply result_filter_Return in Hout as [_ ->].
  apply In_py_slice_to, filter_In in Hs as [Hin Hkept].
  apply (proj1 (Forall_forall _ songs) Hrec) in Hin.
  apply kept_record_passes in Hkept; [|assumption].
  apply andb_true_iff in Hkept as [_ Hmax]. apply negb_true_iff in Hmax.
  destruct (above_max_false q hi _ Hhi Hmax) as [H|H]; [assumption|contradiction].
Qed.

(** C5 fails on the code for the upper bound 0, a value of [0,1]: line 113
    tests the truth value of [danceability_max], which is false for 0.0, so
    the comparison is skipped and a record of danceability 0.8 is returned
    although 0.8 > 0.  (Line 109 tests the same bound with [is not None].) *)
Theorem result_filter_zero_max_retains :
  danceability_max zero_max_query = Some 0%Q /\
  result_filter zero_max_query [JDict [("danceability", JNum 0.8)]]
  = Return [JDict [("danceability", JNum 0.8)]] /\
  ~ (danceability_or_0 (JDict [("danceability", JNum 0.8)]) <= 0)%Q.
Proof.
  split; [reflexivity|split; [reflexivity|]].
  intros H. apply H. reflexivity.
Qed.

(** ** The result filter: limit, order, idempotence *)

(** C6.  With a positive limit the filter returns on every sequence of
    SongRecords; whenever it returns, it returns at most [limit] records,
    its output is a subsequence of its input, and the output is the first
    [limit] of the surviving records, themselves a subsequence of the
    input. *)
Theorem result_filter_limit_order (q : QuerySpec) (songs : list json) :
  0 < limit q ->
  (Forall (fun s => is_song_record s = true) songs ->
   exists out, result_filter q songs = Return out) /\
  (forall out, result_filter q songs = Return out ->
     Z.of_nat (List.length out) <= limit q /\
     subseq out songs /\
     exists survivors,
       for_songs q [] songs = Return survivors /\
       subseq survivors songs /\
       out = firstn (Z.to_nat (limit q)) survivors).
Proof.
  intros Hlimit. split.
  - intros Hrec. eexists. apply result_filter_total. now apply song_records_run.
  - intros out Hout. apply result_filter_Return in Hout as [Hruns ->].
    split; [apply py_slice_to_length; lia|].
    split; [eapply subseq_trans; [apply py_slice_to_subseq|apply subseq_filter]|].
    exists (filter (kept q) songs).
    split; [now rewrite for_songs_filter|].
    split; [apply subseq_filter|].
    unfold py_slice_to. destruct (Z.leb_spec 0 (limit q)); [reflexivity|lia].
Qed.

(** C7.  The filter is idempotent: with a limit that is not negative (the
    limit of a QuerySpec is positive) it returns on every sequence of
    SongRecords, and whenever it returns a sequence, filtering that sequence
    again with the same QuerySpec returns it unchanged. *)
Theorem result_filter_idempotent (q : QuerySpec) (songs : list json) :
  0 <= limit q ->
  (Forall (fun s => is_song_record s = true) songs ->
   exists out, result_filter q songs = Return out) /\
  (forall out, result_filter q songs = Return out ->
     result_filter q out = Return out).
Proof.
  intros Hlimit. split.
  - intros Hrec. eexists. apply result_filter_total. now apply song_records_run.
  - intros out Hout. apply result_filter_Return in Hout as [_ ->].
    set (survivors := filter (kept q) songs).
    assert (Hsub : subseq (py_slice_to survivors (limit q)) survivors)
      by apply py_slice_to_subseq.
    assert (Hall : filter (kept q) survivors = survivors).
    { apply forallb_filter_id, forallb_filter. }
    rewrite result_filter_total.
    + rewrite (filter_subseq_all (kept q) Hsub Hall).
      now rewrite py_slice_to_idem.
    + apply Forall_forall; intros s Hs.
      apply (subseq_In s Hsub) in Hs.
      apply filter_In in Hs as [_ Hs]. now apply kept_runs.
Qed.

(** With a negative limit the slice of line 118 drops records from the end,
    and filtering twice drops more than filtering once. *)
Example result_filter_negative_limit :
  let q := {| bpm := 180; bpm_tolerance := 5; genre := None; artist := None;
              danceability_min := None; danceability_max := None; limit := -1 |} in
  result_filter q [JDict []; JDict []; JDict []] = Return [JDict []; JDict []] /\
  result_filter q [JDict []; JDict []] = Return [JDict []].
Proof. split; reflexivity. Qed.

(** ** Danceability 0 and missing danceability *)

Lemma genre_mismatch_same_genre (q : QuerySpec) (d0 d1 : list (string * json)) :
  dict_lookup d0 "genre" = dict_lookup d1 "genre" ->
  genre_mismatch q (JDict d0) = genre_mismatch q (JDict d1).
Proof.
  intros H. unfold genre_mismatch, py_get, dict_get. now rewrite H.
Qed.

Lemma below_min_compat (q : QuerySpec) (x y : Q) :
  (x == y)%Q -> below_min q x = below_min q y.
Proof.
  intros H. unfold below_min. destruct (danceability_min q) as [lo|]; [|reflexivity].
  f_equal. apply Qlt_bool_compat; [assumption|reflexivity].
Qed.

Lemma above_max_compat (q : QuerySpec) (x y : Q) :
  (x == y)%Q -> above_max q x = above_max q y.
Proof.
  intros H. unfold above_max. destruct (danceability_max q) as [hi|]; [|reflexivity].
  f_equal. apply Qlt_bool_compat; [reflexivity|assumption].
Qed.

(** Lines 110-114 on a record whose danceability is the number [x], or is
    missing with [x] = 0. *)
Lemma danceability_out_number (q : QuerySpec) (d : list (string * json)) (x : Q) :
  dict_get d "danceability" (JNum 0) = JNum x ->
  danceability_out q (JDict d)
  = if (is_not_None (danceability_min q) || is_not_None (danceability_max q))%bool
    then Return (below_min q x || above_max q x)%bool
    else Return false.
Proof.
  intros H. unfold danceability_out, py_get. rewrite H.
  destruct (is_not_None (danceability_min q) || is_not_None (danceability_max q))%bool;
    [|reflexivity].
  simpl. rewrite float_and_lt; simpl.
  destruct (below_min q x); simpl; [reflexivity|apply float_and_gt].
Qed.

(** C9.  A record whose danceability is exactly 0 and a record with no
    danceability field get the same decision from the danceability checks
    of lines 109-114, whatever the bounds; when their genre fields agree too,
    the whole turn of the loop keeps both or skips both. *)
Theorem zero_danceability_as_missing (q : QuerySpec) (d0 d1 : list (string * json)) (z : Q) :
  dict_lookup d0 "danceability" = Some (JNum z) -> (z == 0)%Q ->
  dict_lookup d1 "danceability" = None ->
  danceability_out q (JDict d0) = danceability_out q (JDict d1) /\
  (dict_lookup d0 "genre" = dict_lookup d1 "genre" ->
   loop_body q (JDict d0) = loop_body q (JDict d1)).
Proof.
  intros H0 Hz H1.
  assert (E : danceability_out q (JDict d0) = danceability_out q (JDict d1)).
  { rewrite (danceability_out_number q d0 z) by (unfold dict_get; now rewrite H0).
    rewrite (danceability_out_number q d1 0%Q) by (unfold dict_get; now rewrite H1).
    now rewrite (below_min_compat q z 0%Q Hz), (above_max_compat q z 0%Q Hz). }
  split; [exact E|].
  intros Hgenre. unfold loop_body.
  now rewrite (genre_mismatch_same_genre q d0 d1 Hgenre), E.
Qed.

(** * Further properties of [search_songs] *)

Lemma py_slice_to_nil {A : Type} (n : Z) : py_slice_to (@nil A) n = [].
Proof. unfold py_slice_to. destruct (0 <=? n); apply firstn_nil. Qed.

Lemma loop_body_no_filter (q : QuerySpec) (song : json) :
  no_filter q = true -> loop_body q song = Return true.
Proof.
  unfold no_filter; intros H.
  apply andb_true_iff in H as [H Hmax]. apply andb_true_iff in H as [Hgenre Hmin].
  apply negb_true_iff in Hgenre, Hmin, Hmax.
  unfold loop_body. rewrite genre_mismatch_falsy by assumption. simpl.
  unfold danceability_out. now rewrite Hmin, Hmax.
Qed.

Lemma filter_all {A : Type} (f : A -> bool) (l : list A) :
  (forall x, f x = true) -> filter f l = l.
Proof.
  intros H. apply forallb_filter_id, forallb_forall. intros x _. apply H.
Qed.

(** X1.  The request of every call: one request whatever the reply, with the
    headers that [__init__] built from the API key and with [limit] as the
    only parameter. *)
Theorem search_songs_one_request (key : string) (transport : request -> reply)
    (q : QuerySpec) (w : world) :
  exists r,
    sent (fst (search_songs (init key) transport q w)) = (sent w ++ [r])%list /\
    req_headers r = [("Accept", "application/json"); ("X-API-KEY", key)] /\
    params r = [("limit", limit q)].
Proof.
  exists (build_request (init key) q).
  split; [apply search_songs_sent|]. split; reflexivity.
Qed.

Lemma search_songs_payload (self : GetSongBPMClient) (transport : request -> reply)
    (q : QuerySpec) (w : world) (d : list (string * json)) (payload : json) :
  transport (build_request self q) = Body (JDict d) ->
  dict_lookup d "tempo" = Some payload ->
  snd (search_songs self transport q w)
  = (items <- py_iter payload ;; result_filter q items).
Proof.
  intros Hbody Hp. unfold search_songs. rewrite Hbody. simpl.
  unfold dict_contains, dict_get. now rewrite Hp.
Qed.

(** X2.  Line 99: a body that has the key "tempo" is read under that key and its
    "search" entry is ignored; a body with neither key gives the empty list,
    and nothing is printed. *)
Theorem search_songs_envelope (self : GetSongBPMClient) (transport : request -> reply)
    (q : QuerySpec) (w : world) (d : list (string * json)) :
  transport (build_request self q) = Body (JDict d) ->
  (forall payload, dict_lookup d "tempo" = Some payload ->
     snd (search_songs self transport q w)
     = (items <- py_iter payload ;; result_filter q items)) /\
  (dict_lookup d "tempo" = None -> dict_lookup d "search" = None ->
     snd (search_songs self transport q w) = Return [] /\
     stdout (fst (search_songs self transport q w)) = stdout w).
Proof.
  intros Hbody. unfold search_songs. rewrite Hbody. simpl.
  unfold dict_contains, dict_get. split.
  - intros payload Hp. now rewrite Hp.
  - intros Ht Hs. rewrite Ht, Hs. simpl. split; [|reflexivity].
    unfold result_filter; simpl. now rewrite py_slice_to_nil.
Qed.

Lemma result_filter_passthrough (q : QuerySpec) (songs : list json) :
  no_filter q = true ->
  result_filter q songs = Return (py_slice_to songs (limit q)).
Proof.
  intros H.
  rewrite result_filter_total.
  - rewrite filter_all; [reflexivity|].
    intros s. unfold kept. now rewrite loop_body_no_filter.
  - apply Forall_forall. intros s _. exists true. now apply loop_body_no_filter.
Qed.

(** X3.  With no genre filter (or an empty one) and no danceability bound, the
    filter looks into no item: whatever the items are, it returns the first
    [limit] of them (by the slice of line 118), raises nothing, and returns
    a subsequence of its input. *)
Theorem result_filter_no_filter (q : QuerySpec) (songs : list json) :
  no_filter q = true ->
  result_filter q songs = Return (py_slice_to songs (limit q)) /\
  subseq (py_slice_to songs (limit q)) songs.
Proof.
  intros H. split; [now apply result_filter_passthrough|apply py_slice_to_subseq].
Qed.

Lemma result_filter_not_runs (q : QuerySpec) (songs : list json) (s : json) (x : exn) :
  In s songs -> loop_body q s = Raise x -> exists x', result_filter q songs = Raise x'.
Proof.
  intros Hin Hraise.
  destruct (result_filter q songs) as [out|x'] eqn:E; [|now exists x'].
  apply result_filter_Return in E as [Hruns _].
  apply (proj1 (Forall_forall _ songs) Hruns) in Hin as [b Hb]. congruence.
Qed.

(** X4.  With a genre filter at work, one item whose genre is present and is not
    a string (null, a number, ...) makes the whole call raise: no list is
    returned, also when the item lies beyond the first [limit] survivors. *)
Theorem result_filter_raises_on_bad_genre (q : QuerySpec) (g : string)
    (songs : list json) (d : list (string * json)) (v : json) :
  genre q = Some g -> g <> "" ->
  In (JDict d) songs -> dict_lookup d "genre" = Some v ->
  (forall s, v <> JStr s) ->
  exists x, result_filter q songs = Raise x.
Proof.
  intros Hg Hne Hin Hv Hstr.
  apply (result_filter_not_runs q songs (JDict d) AttributeError Hin).
  unfold loop_body, genre_mismatch. rewrite Hg, truthy_str_Some by assumption.
  simpl. unfold dict_get. rewrite Hv.
  destruct v; try reflexivity. now destruct (Hstr s).
Qed.

Lemma for_songs_raise_head (q : QuerySpec) (acc : list json) (song : json)
    (rest : list json) (x : exn) :
  loop_body q song = Raise x -> for_songs q acc (song :: rest) = Raise x.
Proof. intros H. simpl. now rewrite H. Qed.

Lemma loop_body_not_dict (q : QuerySpec) (song : json) :
  no_filter q = false -> (forall d, song <> JDict d) ->
  loop_body q song = Raise AttributeError.
Proof.
  intros Hf Hnd.
  assert (Hget : forall key default, py_get song key default = Raise AttributeError).
  { intros key default. destruct song; try reflexivity. now destruct (Hnd d). }
  unfold loop_body, genre_mismatch, danceability_out.
  unfold no_filter in Hf.
  destruct (genre q) as [g|] eqn:Hg.
  - destruct (truthy_str (Some g)) eqn:Ht.
    + now rewrite Hget.
    + simpl in *. destruct (is_not_None (danceability_min q)); simpl in *;
        [now rewrite Hget|].
      destruct (is_not_None (danceability_max q)); simpl in *;
        [now rewrite Hget|discriminate].
  - simpl in *. destruct (is_not_None (danceability_min q)); simpl in *;
      [now rewrite Hget|].
    destruct (is_not_None (danceability_max q)); simpl in *;
      [now rewrite Hget|discriminate].
Qed.

(** X5.  When the payload under "tempo" is a JSON object and not an array, the
    loop of line 103 visits its keys.  With a filter at work the first key
    makes the call raise [AttributeError]; with no filter the keys themselves
    come back as the songs, cut to the limit. *)
Theorem search_songs_object_payload (self : GetSongBPMClient)
    (transport : request -> reply) (q : QuerySpec) (w : world)
    (d : list (string * json)) (k : string) (v : json) (rest : list (string * json)) :
  transport (build_request self q) = Body (JDict d) ->
  dict_lookup d "tempo" = Some (JDict ((k, v) :: rest)) ->
  snd (search_songs self transport q w)
  = if no_filter q
    then Return (py_slice_to (JStr k :: map (fun kv => JStr (fst kv)) rest) (limit q))
    else Raise AttributeError.
Proof.
  intros Hbody Hpayload.
  rewrite (search_songs_payload self transport q w d _ Hbody Hpayload). simpl.
  destruct (no_filter q) eqn:Hf.
  - now apply result_filter_passthrough.
  - unfold result_filter.
    rewrite (for_songs_raise_head q [] (JStr k) _ AttributeError); [reflexivity|].
    apply loop_body_not_dict; [assumption|discriminate].
Qed.

(** X6.  With an upper bound other than zero, on every sequence of SongRecords
    the filter returns, and every record it returns has a danceability, a
    missing one counting as 0, at or below the bound. *)
Theorem result_filter_danceability_max (q : QuerySpec) (hi : Q) (songs : list json) :
  danceability_max q = Some hi -> ~ (hi == 0)%Q ->
  Forall (fun s => is_song_record s = true) songs ->
  exists out,
    result_filter q songs = Return out /\
    (forall s, In s out -> (danceability_or_0 s <= hi)%Q).
Proof.
  intros Hhi Hnz Hrec.
  eexists; split; [apply result_filter_total; now apply song_records_run|].
  apply (result_filter_danceability_max_nonzero q hi songs _ Hhi Hnz Hrec).
  apply result_filter_total. now apply song_records_run.
Qed.

Lemma Qlt_bool_intro (x y : Q) : (x < y)%Q -> Qlt_bool x y = true.
Proof.
  intros H. unfold Qlt_bool. apply negb_true_iff.
  destruct (Qle_bool y x) eqn:E; [|reflexivity].
  apply Qle_bool_iff in E. now apply Qle_not_lt in E.
Qed.

(** X7.  With a positive lower bound, an item that has no danceability field is
    never returned. *)
Theorem result_filter_missing_danceability (q : QuerySpec) (lo : Q)
    (songs out : list json) (s : json) :
  danceability_min q = Some lo -> (0 < lo)%Q ->
  result_filter q songs = Return out ->
  song_field s "danceability" = None ->
  ~ In s out.
Proof.
  intros Hlo Hpos Hout Hmissing Hin.
  apply result_filter_Return in Hout as [_ ->].
  apply In_py_slice_to, filter_In in Hin as [_ Hkept].
  unfold kept, loop_body in Hkept.
  destruct (genre_mismatch q s) as [[|]|]; simpl in Hkept; try discriminate.
  assert (E : danceability_out q s = Return true \/ exists x, danceability_out q s = Raise x).
  { destruct s as [| | | | |d];
      try (right; exists AttributeError; unfold danceability_out;
           rewrite Hlo; reflexivity).
    left. simpl in Hmissing.
    rewrite (danceability_out_number q d 0%Q) by (unfold dict_get; now rewrite Hmissing).
    rewrite Hlo; simpl.
    unfold below_min. rewrite Hlo. simpl.
    rewrite (Qlt_bool_intro 0 lo Hpos).
    destruct (Qeq_bool lo 0) eqn:E0; [|reflexivity].
    apply Qeq_bool_iff in E0. rewrite E0 in Hpos. now apply Qlt_irrefl in Hpos. }
  destruct E as [E|[x E]]; rewrite E in Hkept; discriminate.
Qed.

(** The loop does not look at the limit. *)
Lemma for_songs_with_limit (q : QuerySpec) (n : Z) (songs : list json) :
  forall acc, for_songs (with_limit q n) acc songs = for_songs q acc songs.
Proof.
  induction songs as [|song rest IH]; intros acc; simpl; [reflexivity|].
  change (loop_body (with_limit q n) song) with (loop_body q song).
  destruct (loop_body q song) as [[|]|]; simpl; auto.
Qed.

(** X8.  A smaller limit gives a prefix: what the filter returns under the limit
    [n] is the first [n] records of what it returns under any limit
    [m >= n], for [n] not negative. *)
Theorem result_filter_limit_prefix (q : QuerySpec) (songs out : list json) (n m : Z) :
  0 <= n <= m ->
  result_filter (with_limit q m) songs = Return out ->
  result_filter (with_limit q n) songs = Return (firstn (Z.to_nat n) out).
Proof.
  intros Hnm. unfold result_filter. rewrite !for_songs_with_limit.
  destruct (for_songs q [] songs) as [survivors|x]; simpl; [|discriminate].
  intros [= <-]. f_equal. unfold py_slice_to.
  destruct (Z.leb_spec 0 n); [|lia]. destruct (Z.leb_spec 0 m); [|lia].
  rewrite firstn_firstn. f_equal. lia.
Qed.

Lemma for_songs_acc (q : QuerySpec) (songs : list json) :
  forall acc,
    for_songs q acc songs = (r <- for_songs q [] songs ;; Return (acc ++ r)%list).
Proof.
  induction songs as [|song rest IH]; intros acc; simpl.
  - now rewrite app_nil_r.
  - destruct (loop_body q song) as [[|]|x]; simpl; try reflexivity.
    + rewrite (IH (acc ++ [song])%list), (IH [song]).
      destruct (for_songs q [] rest); simpl; [|reflexivity].
      now rewrite <- app_assoc.
    + apply IH.
Qed.

(** X9.  The loop decides on each song by itself: the survivors of two batches
    put end to end are the survivors of the first followed by those of the
    second, and the second batch is only looked at when the first raised
    nothing. *)
Theorem for_songs_app (q : QuerySpec) (l1 l2 : list json) :
  for_songs q [] (l1 ++ l2)
  = (s1 <- for_songs q [] l1 ;;
     s2 <- for_songs q [] l2 ;;
     Return (s1 ++ s2)%list).
Proof.
  assert (H : forall acc,
            for_songs q acc (l1 ++ l2) = (s1 <- for_songs q acc l1 ;; for_songs q s1 l2)).
  { induction l1 as [|song rest IH]; intros acc; simpl; [reflexivity|].
    destruct (loop_body q song) as [[|]|x]; simpl; auto. }
  rewrite H. destruct (for_songs q [] l1) as [s1|x]; simpl; [|reflexivity].
  apply for_songs_acc.
Qed.

Lemma lower_empty_iff (g g' : string) :
  lower g = lower g' -> truthy_str (Some g) = truthy_str (Some g').
Proof.
  intros H. destruct g as [|c g], g' as [|c' g']; try reflexivity; exfalso.
  - symmetry in H. revert H. apply lower_nonempty. discriminate.
  - revert H. apply lower_nonempty. discriminate.
Qed.

(** X10.  The letter case of the genre filter does not matter: two filter
    values that [str.lower] sends to the same text (ASCII or not) give the
    same result on every input, exceptions included. *)
Theorem result_filter_genre_case (q : QuerySpec) (g g' : string) (songs : list json) :
  lower g = lower g' ->
  result_filter (with_genre q (Some g)) songs
  = result_filter (with_genre q (Some g')) songs.
Proof.
  intros H.
  assert (Hbody : forall song,
            loop_body (with_genre q (Some g)) song
            = loop_body (with_genre q (Some g')) song).
  { intros song. unfold loop_body, genre_mismatch. simpl genre.
    rewrite (lower_empty_iff g g' H), H. reflexivity. }
  assert (Hloop : forall acc,
            for_songs (with_genre q (Some g)) acc songs
            = for_songs (with_genre q (Some g')) acc songs).
  { induction songs as [|song rest IH]; intros acc; simpl; [reflexivity|].
    rewrite Hbody.
    destruct (loop_body (with_genre q (Some g')) song) as [[|]|x]; simpl; auto. }
  unfold result_filter. now rewrite Hloop.
Qed.

(** * [search_by_tempo] and [get_song_details] *)

(** X11.  A transport failure in [search_by_tempo] is not raised: after its one
    request the method prints one line and returns the empty list. *)
Theorem search_by_tempo_transport_failure (self : GetSongBPMClient)
    (transport : request -> reply) (bpm_min bpm_max limit : Z) (w : world) (e : string) :
  transport (search_request self bpm_min bpm_max limit) = Failed e ->
  snd (search_by_tempo self transport bpm_min bpm_max limit w) = Return (JList []) /\
  stdout (fst (search_by_tempo self transport bpm_min bpm_max limit w))
  = (stdout w ++ [("Error searching by tempo: " ++ e)%string])%list /\
  sent (fst (search_by_tempo self transport bpm_min bpm_max limit w))
  = (sent w ++ [search_request self bpm_min bpm_max limit])%list.
Proof.
  intros H. unfold search_by_tempo. rewrite H. repeat split.
Qed.

(** X12.  On one and the same body, a mapping with a "search" list and no "tempo"
    key, [search_by_tempo] hands the whole list back whatever [limit] it was
    given, while [search_songs] without filters cuts it to its limit: the
    limit of [search_by_tempo] is only sent upstream. *)
Theorem search_by_tempo_not_truncated (self : GetSongBPMClient)
    (transport : request -> reply) (q : QuerySpec) (bpm_min bpm_max limit' : Z)
    (w w' : world) (d : list (string * json)) (l : list json) :
  transport (search_request self bpm_min bpm_max limit') = Body (JDict d) ->
  transport (build_request self q) = Body (JDict d) ->
  dict_lookup d "tempo" = None -> dict_lookup d "search" = Some (JList l) ->
  no_filter q = true ->
  snd (search_by_tempo self transport bpm_min bpm_max limit' w') = Return (JList l) /\
  snd (search_songs self transport q w) = Return (py_slice_to l (limit q)).
Proof.
  intros Hb Hb' Ht Hs Hf. split.
  - unfold search_by_tempo. rewrite Hb. simpl. unfold dict_get. now rewrite Hs.
  - unfold search_songs. rewrite Hb'. simpl.
    unfold dict_contains, dict_get. rewrite Ht, Hs. simpl.
    now apply result_filter_passthrough.
Qed.

(** X13.  [get_song_details] returns the empty mapping both when the transport
    fails and when the body has no "song" key; only the line printed in the
    first case tells the two apart. *)
Theorem get_song_details_empty (self : GetSongBPMClient)
    (transport : request -> reply) (song_id : string) (w : world) :
  (forall e, transport (song_request self song_id) = Failed e ->
     snd (get_song_details self transport song_id w) = Return (JDict []) /\
     stdout (fst (get_song_details self transport song_id w))
     = (stdout w ++ [("Error getting song details: " ++ e)%string])%list) /\
  (forall d, transport (song_request self song_id) = Body (JDict d) ->
     dict_lookup d "song" = None ->
     snd (get_song_details self transport song_id w) = Return (JDict []) /\
     stdout (fst (get_song_details self transport song_id w)) = stdout w).
Proof.
  split.
  - intros e H. unfold get_song_details. rewrite H. split; reflexivity.
  - intros d H Hs. unfold get_song_details. rewrite H. simpl.
    unfold dict_get. rewrite Hs. split; reflexivity.
Qed.

(** X14.  A body that is not a JSON object (a list, a string, null, ...) makes
    [search_by_tempo] and [get_song_details] raise [AttributeError]: the
    [except] of lines 56 and 141 does not catch it. *)
Theorem non_object_body_raises (self : GetSongBPMClient)
    (transport : request -> reply) (data : json) (w : world) :
  (forall d, data <> JDict d) ->
  (forall bpm_min bpm_max limit,
     transport (search_request self bpm_min bpm_max limit) = Body data ->
     snd (search_by_tempo self transport bpm_min bpm_max limit w)
     = Raise AttributeError) /\
  (forall song_id,
     transport (song_request self song_id) = Body data ->
     snd (get_song_details self transport song_id w) = Raise AttributeError).
Proof.
  intros Hnd.
  assert (Hget : forall key default, py_get data key default = Raise AttributeError).
  { intros key default. destruct data; try reflexivity. now destruct (Hnd d). }
  split.
  - intros lo hi n H. unfold search_by_tempo. rewrite H. simpl. apply Hget.
  - intros id H. unfold get_song_details. rewrite H. simpl. apply Hget.
Qed.

Lemma append_inv_tail_slash (a b : string) : a ++ "/" = b ++ "/" -> a = b.
Proof.
  revert b; induction a as [|x a IH]; intros [|y b]; simpl; intros H.
  - reflexivity.
  - injection H as _ H. destruct b; discriminate.
  - injection H as _ H. destruct a; discriminate.
  - injection H as -> H. f_equal. now apply IH.
Qed.

(** X15.  The three methods never share an endpoint: whatever their arguments, the
    requests of [search_songs], [search_by_tempo] and [get_song_details] of
    one client go to three different URLs, and two calls of
    [get_song_details] go to the same URL only for the same song id. *)
Theorem endpoints_apart (self : GetSongBPMClient) (q : QuerySpec)
    (bpm_min bpm_max limit' : Z) (song_id song_id' : string) :
  endpoint (build_request self q) <> endpoint (search_request self bpm_min bpm_max limit') /\
  endpoint (build_request self q) <> endpoint (song_request self song_id) /\
  endpoint (search_request self bpm_min bpm_max limit') <> endpoint (song_request self song_id) /\
  (endpoint (song_request self song_id) = endpoint (song_request self song_id') ->
   song_id = song_id').
Proof.
  assert (Hq : exists rest,
            endpoint (build_request self q) = base_url self ++ String "/" rest /\
            (exists rest', rest = String "a" rest') \/
            endpoint (build_request self q) = base_url self ++ String "/" rest /\
            (exists rest', rest = String "t" rest')).
  { unfold build_request, build_endpoint; simpl.
    destruct (artist q) as [a|]; [destruct (truthy_str (Some a))|];
      eexists; ((left; split; [reflexivity|eexists; reflexivity])
                || (right; split; [reflexivity|eexists; reflexivity])). }
  destruct Hq as [rest Hq].
  repeat split.
  - intros H.
    destruct Hq as [[E [r' ->]]|[E [r' ->]]]; rewrite E in H; simpl in H;
      apply append_inv_head in H; discriminate.
  - intros H.
    destruct Hq as [[E [r' ->]]|[E [r' ->]]]; rewrite E in H; simpl in H;
      apply append_inv_head in H; discriminate.
  - simpl. intros H. apply append_inv_head in H. discriminate.
  - simpl. intros H. apply append_inv_head in H.
    apply (append_inv_head "/song/") in H. now apply append_inv_tail_slash.
Qed.

(** * [display_results] *)

Lemma emit_nil (w : world) : emit [] w = w.
Proof. destruct w; unfold emit; simpl. now rewrite app_nil_r. Qed.

Lemma emit_emit (l1 l2 : list string) (w : world) :
  emit l2 (emit l1 w) = emit (l1 ++ l2) w.
Proof. unfold emit; simpl. now rewrite app_assoc. Qed.

Lemma print_emit (line : string) (w : world) : print line w = emit [line] w.
Proof. reflexivity. Qed.

Lemma optional_line_dict (render : json -> string) (verbose : bool)
    (d : list (string * json)) (key label : string) (w : world) :
  optional_line render verbose (JDict d) key label w
  = (emit (optional_block render verbose d key label) w, Return tt).
Proof.
  unfold optional_line, optional_block, io_bind, io_lift, io_ret, io_print.
  destruct verbose; simpl.
  - reflexivity.
  - destruct (py_truthy (dict_get d key JNull)); simpl; [reflexivity|].
    now rewrite emit_nil.
Qed.

Lemma display_song_block (render : json -> string) (verbose : bool) (i : Z)
    (song : json) (w : world) :
  displayable song = true ->
  display_song render verbose i song w
  = (emit (song_block render verbose i song) w, Return tt).
Proof.
  intros Hd. destruct song as [| | | | |d]; try discriminate.
  simpl in Hd. apply andb_true_iff in Hd as [Hartist Halbum].
  assert (Ha : py_get (dict_get d "artist" (JDict [])) "name" (JStr "Unknown Artist")
               = Return (sub_get (dict_get d "artist" (JDict [])) "name"
                           (JStr "Unknown Artist"))).
  { unfold dict_get. destruct (dict_lookup d "artist") as [[]|]; try discriminate;
      reflexivity. }
  assert (Hb : py_get (dict_get d "album" (JDict [])) "title" (JStr "N/A")
               = Return (sub_get (dict_get d "album" (JDict [])) "title" (JStr "N/A"))).
  { unfold dict_get. destruct (dict_lookup d "album") as [[]|]; try discriminate;
      reflexivity. }
  unfold display_song, song_block, io_bind, io_lift, io_print, io_ret.
  cbn [py_get]. rewrite Ha, Hb.
  rewrite !optional_line_dict, !print_emit, !emit_emit.
  destruct (py_truthy (dict_get d "song_id" JNull)).
  - rewrite print_emit, emit_emit. f_equal. f_equal.
    rewrite <- !app_assoc. reflexivity.
  - f_equal. f_equal. rewrite app_nil_r. reflexivity.
Qed.

Lemma display_songs_blocks (render : json -> string) (verbose : bool)
    (songs : list json) :
  forall (i : Z) (w : world),
    Forall (fun s => displayable s = true) songs ->
    display_songs render verbose i songs w
    = (emit (song_blocks render verbose i songs) w, Return tt).
Proof.
  induction songs as [|song rest IH]; intros i w H; simpl.
  - unfold io_ret. now rewrite emit_nil.
  - inversion H as [|? ? Hsong Hrest]; subst.
    unfold io_bind. rewrite display_song_block by assumption.
    rewrite IH by assumption. now rewrite emit_emit.
Qed.

Lemma optional_block_length (render : json -> string) (verbose : bool)
    (d : list (string * json)) (key label : string) :
  (List.length (optional_block render verbose d key label) <= 1)%nat /\
  (verbose = true -> List.length (optional_block render verbose d key label) = 1%nat).
Proof.
  unfold optional_block. destruct verbose; simpl.
  - split; [lia|reflexivity].
  - destruct (py_truthy (dict_get d key JNull)); simpl; split; try lia; discriminate.
Qed.

Lemma song_block_length (render : json -> string) (verbose : bool) (i : Z)
    (song : json) :
  displayable song = true ->
  (3 <= List.length (song_block render verbose i song) <= 8)%nat /\
  (verbose = true -> (7 <= List.length (song_block render verbose i song))%nat).
Proof.
  intros Hd. destruct song as [| | | | |d]; try discriminate.
  unfold song_block. rewrite !length_app.
  destruct (optional_block_length render verbose d "danceability" "Danceability") as [H1 V1].
  destruct (optional_block_length render verbose d "energy" "Energy") as [H2 V2].
  destruct (optional_block_length render verbose d "key" "Key") as [H3 V3].
  destruct (optional_block_length render verbose d "genre" "Genre") as [H4 V4].
  assert (H5 : (List.length (if py_truthy (dict_get d "song_id" JNull)
                             then [("   Song ID: "
                                    ++ py_str render (dict_get d "song_id" JNull))%string]
                             else []) <= 1)%nat)
    by (destruct (py_truthy (dict_get d "song_id" JNull)); simpl; lia).
  cbn [List.length]. split; [lia|].
  intros V. rewrite V1, V2, V3, V4 by assumption. lia.
Qed.

Lemma song_blocks_length (render : json -> string) (verbose : bool)
    (songs : list json) :
  forall i,
    Forall (fun s => displayable s = true) songs ->
    (3 * List.length songs <= List.length (song_blocks render verbose i songs)
     <= 8 * List.length songs)%nat /\
    (verbose = true ->
     (7 * List.length songs <= List.length (song_blocks render verbose i songs))%nat).
Proof.
  induction songs as [|song rest IH]; intros i H; simpl.
  - split; [lia|intros _; lia].
  - inversion H as [|? ? Hsong Hrest]; subst.
    rewrite length_app.
    destruct (song_block_length render verbose i song Hsong) as [Hb Vb].
    destruct (IH (i + 1) Hrest) as [Hr Vr].
    split; [lia|]. intros V. specialize (Vb V). specialize (Vr V). lia.
Qed.

Lemma display_results_layout (render : json -> string) (songs : list json)
    (verbose : bool) (w : world) :
  Forall (fun s => displayable s = true) songs ->
  display_results render songs verbose w
  = (emit (results_layout render songs verbose) w, Return tt).
Proof.
  intros H. destruct songs as [|song rest]; [reflexivity|].
  set (songs := song :: rest) in *.
  change (display_results render songs verbose w)
    with ((_ <~ io_print (found_line songs) ;;
           _ <~ io_print rule80 ;;
           _ <~ display_songs render verbose 1 songs ;;
           io_print rule80) w).
  unfold io_bind at 1 2 3. unfold io_print at 1 2.
  rewrite display_songs_blocks by assumption.
  unfold io_print. rewrite !print_emit, !emit_emit. reflexivity.
Qed.

(** X16.  On songs whose artist and album, where present, are mappings,
    [display_results] raises nothing and sends no request.  For the empty
    list it calls [print] once, with "No songs found matching your
    criteria."; for n > 0 songs it calls [print] for a header and two rules
    and between 3 and 8 times for each song, at least 7 times for each song
    in verbose mode.  (The count is of calls: the texts of lines 157 and
    161 hold newlines of their own.) *)
Theorem display_results_print_count (render : json -> string) (songs : list json)
    (verbose : bool) (w : world) :
  Forall (fun s => displayable s = true) songs ->
  exists lines,
    display_results render songs verbose w = (emit lines w, Return tt) /\
    (songs = [] -> lines = ["No songs found matching your criteria."]) /\
    (songs <> [] ->
     (3 + 3 * List.length songs <= List.length lines <= 3 + 8 * List.length songs)%nat /\
     (verbose = true -> (3 + 7 * List.length songs <= List.length lines)%nat)).
Proof.
  intros H. exists (results_layout render songs verbose).
  split; [now apply display_results_layout|].
  destruct songs as [|song rest].
  - split; [reflexivity|]. intros Hne; now destruct Hne.
  - split; [discriminate|]. intros _.
    destruct (song_blocks_length render verbose (song :: rest) 1 H) as [Hb Vb].
    assert (E : List.length (results_layout render (song :: rest) verbose)
                = (3 + List.length (song_blocks render verbose 1 (song :: rest)))%nat).
    { unfold results_layout.
      change (List.length (found_line (song :: rest) :: rule80
                :: song_blocks render verbose 1 (song :: rest) ++ [rule80])%list)
        with (S (S (List.length (song_blocks render verbose 1 (song :: rest)
                                   ++ [rule80])%list))).
      rewrite length_app. simpl List.length at 2. lia. }
    rewrite E. split; [lia|]. intros V. specialize (Vb V). lia.
Qed.

Lemma display_songs_app (render : json -> string) (verbose : bool)
    (good rest : list json) :
  forall (i : Z) (w : world),
    Forall (fun s => displayable s = true) good ->
    display_songs render verbose i (good ++ rest) w
    = display_songs render verbose (i + Z.of_nat (List.length good)) rest
        (emit (song_blocks render verbose i good) w).
Proof.
  induction good as [|song good IH]; intros i w H.
  - simpl. now rewrite emit_nil, Z.add_0_r.
  - inversion H as [|? ? Hsong Hgood]; subst.
    cbn [app display_songs song_blocks]. unfold io_bind.
    rewrite display_song_block by assumption.
    rewrite IH by assumption. rewrite emit_emit.
    f_equal. cbn [List.length]. lia.
Qed.

(** A song that line 161 cannot lay out: it is no mapping, or its artist is
    present and is no mapping (a plain string, say). *)
Lemma display_song_bad_artist (render : json -> string) (verbose : bool) (i : Z)
    (bad : json) (w : world) :
  (forall d, bad <> JDict d) \/
  (exists d v, bad = JDict d /\ dict_lookup d "artist" = Some v /\
               forall a, v <> JDict a) ->
  display_song render verbose i bad w = (w, Raise AttributeError).
Proof.
  intros [Hnd|(d & v & -> & Hv & Hna)].
  - unfold display_song, io_bind, io_lift.
    destruct bad; try reflexivity. now destruct (Hnd d).
  - unfold display_song, io_bind, io_lift.
    replace (py_get (JDict d) "artist" (JDict [])) with (Return v)
      by (unfold py_get, dict_get; now rewrite Hv).
    destruct v; try reflexivity. now destruct (Hna d0).
Qed.

(** X17.  [display_results] stops at the first song that is no mapping or whose
    artist is present and is no mapping: it raises [AttributeError] after
    the header, the rule and the lines of the songs before that one, and
    prints nothing for that song or for the songs after it, and no closing
    rule. *)
Theorem display_results_bad_artist (render : json -> string) (verbose : bool)
    (good rest : list json) (bad : json) (w : world) :
  Forall (fun s => displayable s = true) good ->
  ((forall d, bad <> JDict d) \/
   (exists d v, bad = JDict d /\ dict_lookup d "artist" = Some v /\
                forall a, v <> JDict a)) ->
  display_results render (good ++ bad :: rest) verbose w
  = (emit (found_line (good ++ bad :: rest) :: rule80
             :: song_blocks render verbose 1 good) w,
     Raise AttributeError).
Proof.
  intros Hgood Hbad.
  assert (E : display_results render (good ++ bad :: rest) verbose w
              = (_ <~ io_print (found_line (good ++ bad :: rest)) ;;
                 _ <~ io_print rule80 ;;
                 _ <~ display_songs render verbose 1 (good ++ bad :: rest) ;;
                 io_print rule80) w).
  { unfold display_results. destruct good; reflexivity. }
  rewrite E. unfold io_bind at 1 2 3. unfold io_print at 1 2.
  rewrite display_songs_app by assumption.
  cbn [display_songs]. unfold io_bind at 1.
  rewrite (display_song_bad_artist render verbose _ bad _ Hbad).
  rewrite !print_emit, !emit_emit. reflexivity.
Qed.

Lemma subseq_app {A : Type} (l1 l1' l2 l2' : list A) :
  subseq l1 l1' -> subseq l2 l2' -> subseq (l1 ++ l2) (l1' ++ l2').
Proof.
  induction 1; simpl; intros H2; auto with pacer.
Qed.

Lemma subseq_same {A : Type} (l : list A) : subseq l l.
Proof. induction l; auto with pacer. Qed.

Lemma optional_block_subseq (render : json -> string) (d : list (string * json))
    (key label : string) :
  subseq (optional_block render false d key label)
         (optional_block render true d key label).
Proof.
  unfold optional_block; simpl.
  destruct (py_truthy (dict_get d key JNull)); auto using subseq_same with pacer.
Qed.

Lemma song_blocks_subseq (render : json -> string) (songs : list json) :
  forall i, subseq (song_blocks render false i songs) (song_blocks render true i songs).
Proof.
  induction songs as [|song rest IH]; intros i; simpl; [constructor|].
  apply subseq_app; [|apply IH].
  destruct song; try apply subseq_nil.
  unfold song_block.
  apply subseq_app; [apply subseq_same|].
  do 4 (apply subseq_app; [apply optional_block_subseq|]).
  apply subseq_same.
Qed.

(** X18.  Verbose mode only adds lines: on songs that can be laid out, what
    [display_results] prints with [verbose=False] is what it prints with
    [verbose=True] with some lines left out, the others in their order. *)
Theorem display_results_verbose_adds (render : json -> string) (songs : list json)
    (w : world) :
  Forall (fun s => displayable s = true) songs ->
  exists brief full,
    display_results render songs false w = (emit brief w, Return tt) /\
    display_results render songs true w = (emit full w, Return tt) /\
    subseq brief full.
Proof.
  intros H.
  exists (results_layout render songs false), (results_layout render songs true).
  split; [now apply display_results_layout|].
  split; [now apply display_results_layout|].
  destruct songs as [|song rest]; [apply subseq_same|].
  unfold results_layout. do 2 apply subseq_take.
  apply subseq_app; [apply song_blocks_subseq|apply subseq_same].
Qed.


(** * Searching, then displaying *)

Lemma Forall_subseq {A : Type} (P : A -> Prop) (l1 l2 : list A) :
  subseq l1 l2 -> Forall P l2 -> Forall P l1.
Proof.
  intros Hs H. apply Forall_forall. intros x Hx.
  apply (subseq_In x Hs) in Hx. now apply (proj1 (Forall_forall P l2) H).
Qed.

(** X20.  When the service cannot be reached, a search followed by the display of
    its result raises nothing and prints two lines: the error message of
    [search_songs], then "No songs found matching your criteria.". *)
Theorem search_then_display_transport_failure (render : json -> string)
    (self : GetSongBPMClient) (transport : request -> reply) (q : QuerySpec)
    (verbose : bool) (w : world) (e : string) :
  transport (build_request self q) = Failed e ->
  snd (search_then_display render self transport q verbose w) = Return tt /\
  stdout (fst (search_then_display render self transport q verbose w))
  = (stdout w ++ [("Error searching songs: " ++ e)%string;
                  "No songs found matching your criteria."])%list.
Proof.
  intros H. unfold search_then_display, io_bind, search_songs. rewrite H.
  simpl. split; [reflexivity|]. now rewrite <- app_assoc.
Qed.

(** X21.  When the service answers with a list of SongRecords under "tempo" whose
    artist and album, where present, are mappings, a search followed by the
    display of its result raises nothing, whatever the filters and the
    (non-negative or negative) limit, and sends the one request of the
    search. *)
Theorem search_then_display_runs (render : json -> string)
    (self : GetSongBPMClient) (transport : request -> reply) (q : QuerySpec)
    (verbose : bool) (w : world) (d : list (string * json)) (songs : list json) :
  transport (build_request self q) = Body (JDict d) ->
  dict_lookup d "tempo" = Some (JList songs) ->
  Forall (fun s => is_song_record s = true) songs ->
  Forall (fun s => displayable s = true) songs ->
  snd (search_then_display render self transport q verbose w) = Return tt /\
  sent (fst (search_then_display render self transport q verbose w))
  = (sent w ++ [build_request self q])%list.
Proof.
  intros Hbody Htempo Hrec Hdisp.
  unfold search_then_display, io_bind.
  destruct (search_songs self transport q w) as [w1 r] eqn:E.
  assert (Hr : r = Return (py_slice_to (filter (kept q) songs) (limit q))).
  { pose proof (search_songs_payload self transport q w d _ Hbody Htempo) as Hpayload.
    rewrite E in Hpayload. simpl in Hpayload.
    rewrite Hpayload. apply result_filter_total. now apply song_records_run. }
  assert (Hw : sent w1 = (sent w ++ [build_request self q])%list).
  { pose proof (search_songs_sent self transport q w) as Hs. now rewrite E in Hs. }
  subst r.
  assert (Hout : Forall (fun s => displayable s = true)
                   (py_slice_to (filter (kept q) songs) (limit q))).
  { apply Forall_subseq with (l2 := songs); [|assumption].
    eapply subseq_trans; [apply py_slice_to_subseq|apply subseq_filter]. }
  rewrite (display_results_layout render _ verbose w1 Hout).
  simpl. split; [reflexivity|exact Hw].
Qed.

End Client.

(** * The examples *)

Lemma sample_unicode_lower_nonempty :
  forall s, s <> "" -> sample_unicode_lower s <> "".
Proof.
  intros s Hs. unfold sample_unicode_lower.
  destruct (String.eqb s e_acute_upper); [discriminate|exact Hs].
Qed.

Lemma search_songs_endpoint_by_artist_witness :
  exists r,
    sent (fst (search_songs sample_unicode_lower (init "KEY") silent_service daft_punk_query fresh)) = [r] /\
    endpoint r = "https://api.getsongbpm.com/artist/Daft Punk/tempo/170/190/".
Proof.
  destruct (search_songs_endpoint_by_artist sample_unicode_lower (init "KEY") silent_service
              daft_punk_query fresh) as (r & Hsent & Hartist & _).
  exists r. split; [exact Hsent|].
  apply (Hartist "Daft Punk"); [reflexivity|discriminate].
Defined.

(** C1, as stated, fails when the artist filter is set to the empty string:
    the request goes to the general endpoint, not to the artist-scoped one. *)
Lemma search_songs_empty_artist_general_endpoint :
  artist (with_artist default_query (Some "")) = Some "" /\
  map endpoint
      (sent (fst (search_songs sample_unicode_lower (init "KEY") silent_service
                    (with_artist default_query (Some "")) fresh)))
    = ["https://api.getsongbpm.com/tempo/175/185/"] /\
  "https://api.getsongbpm.com/tempo/175/185/"
    <> base_url (init "KEY") ++ artist_tempo_path "" 175 185.
Proof. split; [reflexivity|split; [reflexivity|discriminate]]. Qed.

Lemma search_songs_bpm_range_witness :
  exists r prefix,
    sent (fst (search_songs sample_unicode_lower (init "KEY") silent_service daft_punk_query fresh)) = [r] /\
    endpoint r = prefix ++ tempo_path 170 190.
Proof.
  assert (Ht : 0 <= bpm_tolerance daft_punk_query) by (simpl; lia).
  destruct (search_songs_bpm_range sample_unicode_lower (init "KEY") silent_service daft_punk_query fresh Ht)
    as (r & prefix & Hsent & Hend & _).
  exists r, prefix. split; [exact Hsent|exact Hend].
Defined.

Lemma search_songs_empty_artist_as_absent_witness :
  (exists r,
     sent (fst (search_songs sample_unicode_lower (init "KEY") silent_service
                  (with_artist default_query (Some "")) fresh)) = [r] /\
     endpoint r = "https://api.getsongbpm.com/tempo/175/185/") /\
  (Some "" = @None string \/ Some "" = Some "").
Proof.
  destruct (search_songs_empty_artist_as_absent sample_unicode_lower (init "KEY") silent_service
              default_query fresh) as (Hsent & _ & Habsent).
  split; [exact Hsent|].
  apply (Habsent (Some "")
           (build_request (init "KEY") (with_artist default_query (Some ""))));
    reflexivity.
Defined.

Lemma search_songs_transport_failure_witness :
  snd (search_songs sample_unicode_lower (init "KEY") down_service default_query fresh) = Return [] /\
  stdout (fst (search_songs sample_unicode_lower (init "KEY") down_service default_query fresh))
    = ["Error searching songs: connection refused"].
Proof.
  apply (search_songs_transport_failure sample_unicode_lower (init "KEY") down_service default_query
           fresh "connection refused").
  reflexivity.
Defined.

Lemma result_filter_genre_witness :
  (exists out,
     result_filter sample_unicode_lower rock_query [rock_song; pop_song; JDict []]
     = Return out /\
     out = [rock_song] /\ ~ In (JDict []) out) /\
  (exists out,
     result_filter sample_unicode_lower
       (with_genre default_query (Some e_acute_upper)) [e_acute_song; pop_song]
     = Return out /\
     out = [e_acute_song]).
Proof.
  split.
  - destruct (proj1 (result_filter_genre sample_unicode_lower
                       sample_unicode_lower_nonempty)
                rock_query "rock" [rock_song; pop_song; JDict []])
      as (out & Hout & Heq & _ & Hmissing);
      [reflexivity|discriminate|repeat constructor|].
    exists out. split; [exact Hout|]. split; [exact Heq|].
    apply Hmissing. reflexivity.
  - destruct (proj1 (result_filter_genre sample_unicode_lower
                       sample_unicode_lower_nonempty)
                (with_genre default_query (Some e_acute_upper)) e_acute_upper
                [e_acute_song; pop_song])
      as (out & Hout & Heq & _);
      [reflexivity|discriminate|repeat constructor|].
    exists out. split; [exact Hout|exact Heq].
Defined.

(** C3, as stated, fails when the genre filter is set to the empty string:
    no record is filtered by genre, so a record of genre "Pop" and a record
    with no genre are both retained. *)
Lemma result_filter_empty_genre_retains :
  genre empty_genre_query = Some "" /\
  result_filter sample_unicode_lower empty_genre_query [pop_song; JDict []] = Return [pop_song; JDict []] /\
  genre_equals sample_unicode_lower "" pop_song = false /\
  song_field (JDict []) "genre" = None.
Proof. split; [|split; [|split]]; reflexivity. Qed.

Lemma result_filter_danceability_min_witness :
  exists out,
    result_filter sample_unicode_lower danceable_query
      [JDict [("danceability", JNum 0.8)]; JDict [("danceability", JNum 0.5)]; JDict []]
    = Return out /\
    (forall s, In s out -> (0.7 <= danceability_or_0 s)%Q).
Proof.
  apply (proj1 (result_filter_danceability_min sample_unicode_lower) danceable_query 0.7%Q).
  - reflexivity.
  - repeat constructor.
  - repeat (constructor; [split; vm_compute; discriminate|]). constructor.
Defined.

Lemma result_filter_limit_order_witness :
  Z.of_nat (List.length first_two_danceable) <= 2 /\
  subseq first_two_danceable five_songs.
Proof.
  assert (Hlimit : 0 < limit two_danceable_query) by (simpl; lia).
  destruct (proj2 (result_filter_limit_order sample_unicode_lower two_danceable_query five_songs Hlimit)
              first_two_danceable) as (Hlen & Hsub & _);
    [reflexivity|].
  split; [exact Hlen|exact Hsub].
Defined.

Lemma result_filter_idempotent_witness :
  result_filter sample_unicode_lower two_danceable_query five_songs = Return first_two_danceable /\
  result_filter sample_unicode_lower two_danceable_query first_two_danceable = Return first_two_danceable.
Proof.
  assert (Hlimit : 0 <= limit two_danceable_query) by (simpl; lia).
  split; [reflexivity|].
  apply (proj2 (result_filter_idempotent sample_unicode_lower two_danceable_query five_songs Hlimit)).
  reflexivity.
Defined.

Lemma zero_danceability_as_missing_witness :
  danceability_out danceable_query (JDict [("genre", JStr "Rock"); ("danceability", JNum 0)])
  = danceability_out danceable_query (JDict [("genre", JStr "Rock")]) /\
  loop_body sample_unicode_lower danceable_query (JDict [("genre", JStr "Rock"); ("danceability", JNum 0)])
  = loop_body sample_unicode_lower danceable_query (JDict [("genre", JStr "Rock")]).
Proof.
  destruct (zero_danceability_as_missing sample_unicode_lower danceable_query
              [("genre", JStr "Rock"); ("danceability", JNum 0)]
              [("genre", JStr "Rock")] 0%Q) as [Hd Hl];
    [reflexivity|reflexivity|reflexivity|].
  split; [exact Hd|apply Hl; reflexivity].
Defined.

Lemma search_songs_envelope_witness :
  snd (search_songs sample_unicode_lower (init "KEY") two_key_service default_query fresh)
  = Return [rock_song].
Proof.
  destruct (search_songs_envelope sample_unicode_lower (init "KEY") two_key_service default_query fresh
              [("search", JList [pop_song]); ("tempo", JList [rock_song])])
    as [Htempo _]; [reflexivity|].
  rewrite (Htempo (JList [rock_song])); reflexivity.
Defined.

Lemma result_filter_no_filter_witness :
  result_filter sample_unicode_lower (with_limit default_query 2) [JNull; JStr "x"; JNum 3]
  = Return [JNull; JStr "x"].
Proof.
  apply (proj1 (result_filter_no_filter sample_unicode_lower (with_limit default_query 2)
                  [JNull; JStr "x"; JNum 3] eq_refl)).
Defined.

Lemma result_filter_raises_on_bad_genre_witness :
  exists x,
    result_filter sample_unicode_lower (with_limit rock_query 1)
      [rock_song; pop_song; JDict [("genre", JNull)]] = Raise x.
Proof.
  apply (result_filter_raises_on_bad_genre sample_unicode_lower (with_limit rock_query 1) "rock"
           [rock_song; pop_song; JDict [("genre", JNull)]] [("genre", JNull)] JNull).
  - reflexivity.
  - discriminate.
  - simpl; tauto.
  - reflexivity.
  - discriminate.
Defined.

Lemma search_songs_object_payload_witness :
  snd (search_songs sample_unicode_lower (init "KEY") no_result_service rock_query fresh)
  = Raise AttributeError /\
  snd (search_songs sample_unicode_lower (init "KEY") no_result_service default_query fresh)
  = Return [JStr "error"].
Proof.
  split.
  - apply (search_songs_object_payload sample_unicode_lower (init "KEY") no_result_service rock_query fresh
             [("tempo", JDict [("error", JStr "no result")])]
             "error" (JStr "no result") []); reflexivity.
  - apply (search_songs_object_payload sample_unicode_lower (init "KEY") no_result_service default_query fresh
             [("tempo", JDict [("error", JStr "no result")])]
             "error" (JStr "no result") []); reflexivity.
Defined.

Lemma result_filter_danceability_max_witness :
  exists out,
    result_filter sample_unicode_lower calm_query five_songs = Return out /\
    (forall s, In s out -> (danceability_or_0 s <= 0.5)%Q).
Proof.
  apply (result_filter_danceability_max sample_unicode_lower calm_query 0.5%Q five_songs).
  - reflexivity.
  - discriminate.
  - repeat constructor.
Defined.

Lemma result_filter_missing_danceability_witness :
  ~ In (JDict [("song_id", JStr "d")]) first_two_danceable.
Proof.
  apply (result_filter_missing_danceability sample_unicode_lower two_danceable_query 0.7%Q five_songs
           first_two_danceable (JDict [("song_id", JStr "d")])); reflexivity.
Defined.

Lemma result_filter_limit_prefix_witness :
  result_filter sample_unicode_lower (with_limit two_danceable_query 1) five_songs
  = Return (firstn 1 first_two_danceable).
Proof.
  apply (result_filter_limit_prefix sample_unicode_lower two_danceable_query five_songs
           first_two_danceable 1 2); [lia|reflexivity].
Defined.

Lemma result_filter_genre_case_witness :
  result_filter sample_unicode_lower (with_genre default_query (Some "ROCK"))
    [rock_song; pop_song]
  = result_filter sample_unicode_lower (with_genre default_query (Some "rock"))
      [rock_song; pop_song] /\
  result_filter sample_unicode_lower (with_genre default_query (Some e_acute_upper))
    [e_acute_song; pop_song]
  = result_filter sample_unicode_lower (with_genre default_query (Some e_acute_lower))
      [e_acute_song; pop_song].
Proof.
  split.
  - apply (result_filter_genre_case sample_unicode_lower sample_unicode_lower_nonempty
             default_query "ROCK" "rock" [rock_song; pop_song]).
    reflexivity.
  - apply (result_filter_genre_case sample_unicode_lower sample_unicode_lower_nonempty
             default_query e_acute_upper e_acute_lower [e_acute_song; pop_song]).
    reflexivity.
Defined.

Lemma search_by_tempo_transport_failure_witness :
  snd (search_by_tempo (init "KEY") down_service 170 190 10 fresh) = Return (JList []) /\
  stdout (fst (search_by_tempo (init "KEY") down_service 170 190 10 fresh))
  = ["Error searching by tempo: connection refused"].
Proof.
  destruct (search_by_tempo_transport_failure (init "KEY") down_service 170 190 10
              fresh "connection refused") as (Hres & Hout & _); [reflexivity|].
  split; [exact Hres|exact Hout].
Defined.

Lemma search_by_tempo_not_truncated_witness :
  snd (search_by_tempo (init "KEY") three_song_service 170 190 1 fresh)
  = Return (JList [rock_song; pop_song; rock_song]) /\
  snd (search_songs sample_unicode_lower (init "KEY") three_song_service (with_limit default_query 1) fresh)
  = Return [rock_song].
Proof.
  apply (search_by_tempo_not_truncated sample_unicode_lower (init "KEY") three_song_service
           (with_limit default_query 1) 170 190 1 fresh fresh
           [("search", JList [rock_song; pop_song; rock_song])]
           [rock_song; pop_song; rock_song]); reflexivity.
Defined.

Lemma get_song_details_empty_witness :
  snd (get_song_details (init "KEY") down_service "abc" fresh) = Return (JDict []) /\
  snd (get_song_details (init "KEY") silent_service "abc" fresh) = Return (JDict []).
Proof.
  destruct (get_song_details_empty (init "KEY") down_service "abc" fresh) as [Hdown _].
  destruct (get_song_details_empty (init "KEY") silent_service "abc" fresh) as [_ Hsilent].
  split.
  - apply (Hdown "connection refused"). reflexivity.
  - apply (Hsilent [("tempo", JList [])]); reflexivity.
Defined.

Lemma non_object_body_raises_witness :
  snd (get_song_details (init "KEY") (fun _ => Body (JList [])) "abc" fresh)
  = Raise AttributeError.
Proof.
  destruct (non_object_body_raises (init "KEY") (fun _ => Body (JList [])) (JList []) fresh)
    as [_ Hsong]; [discriminate|].
  apply Hsong. reflexivity.
Defined.

Lemma endpoints_apart_witness :
  "abc" = "abc".
Proof.
  apply (proj2 (proj2 (proj2 (endpoints_apart (init "KEY") default_query 170 190 10
                                "abc" "abc")))).
  reflexivity.
Defined.

Lemma display_results_print_count_witness :
  exists lines,
    display_results (fun _ => "?") five_songs true fresh = (emit lines fresh, Return tt) /\
    (38 <= List.length lines)%nat.
Proof.
  destruct (display_results_print_count (fun _ => "?") five_songs true fresh)
    as (lines & Hrun & _ & Hcount); [repeat constructor|].
  exists lines. split; [exact Hrun|].
  destruct Hcount as [_ Hverbose]; [discriminate|].
  apply Hverbose. reflexivity.
Defined.

Lemma display_results_bad_artist_witness :
  display_results (fun _ => "?") [rock_song; JDict [("artist", JStr "Daft Punk")]; pop_song]
    false fresh
  = (emit [found_line [rock_song; JDict [("artist", JStr "Daft Punk")]; pop_song];
           rule80;
           (nl ++ "1. Unknown - Unknown Artist")%string;
           "   BPM: N/A"; "   Album: N/A"; "   Danceability: ?"; "   Genre: Rock"] fresh,
     Raise AttributeError).
Proof.
  apply (display_results_bad_artist (fun _ => "?") false [rock_song] [pop_song]
           (JDict [("artist", JStr "Daft Punk")]) fresh).
  - repeat constructor.
  - right. exists [("artist", JStr "Daft Punk")], (JStr "Daft Punk").
    split; [reflexivity|]. split; [reflexivity|discriminate].
Defined.

Lemma display_results_verbose_adds_witness :
  exists brief full,
    display_results (fun _ => "?") [rock_song; pop_song] false fresh
    = (emit brief fresh, Return tt) /\
    display_results (fun _ => "?") [rock_song; pop_song] true fresh
    = (emit full fresh, Return tt) /\
    subseq brief full.
Proof.
  apply (display_results_verbose_adds (fun _ => "?") [rock_song; pop_song] fresh).
  repeat constructor.
Defined.


Lemma search_then_display_transport_failure_witness :
  stdout (fst (search_then_display sample_unicode_lower (fun _ => "?") (init "KEY") down_service
                 default_query false fresh))
  = ["Error searching songs: connection refused";
     "No songs found matching your criteria."].
Proof.
  apply (search_then_display_transport_failure sample_unicode_lower (fun _ => "?") (init "KEY") down_service
           default_query false fresh "connection refused").
  reflexivity.
Defined.

Lemma search_then_display_runs_witness :
  snd (search_then_display sample_unicode_lower (fun _ => "?") (init "KEY") two_key_service
         rock_query true fresh) = Return tt.
Proof.
  destruct (search_then_display_runs sample_unicode_lower (fun _ => "?") (init "KEY") two_key_service
              rock_query true fresh
              [("search", JList [pop_song]); ("tempo", JList [rock_song])] [rock_song])
    as [Hrun _]; [reflexivity|reflexivity|repeat constructor|repeat constructor|].
  exact Hrun.
Defined.

